(** * mcp-kubernetes: configuration, telemetry and tool-handler adapters

    A shallow embedding of the Go packages [config], [telemetry] and
    [tools] of mcp-kubernetes, together with the access-policy and
    namespace-scope contracts of the [security] package.

    Conventions of the embedding:
    - a Go [interface{}] value is an element of [any], tagged with its
      dynamic type; the nil interface is [AnyNil];
    - a Go [map[string]interface{}] is [option (gmap string any)], where
      [None] is the nil map (reads succeed with the zero value, a write
      panics) and [Some m] is an allocated map;
    - a Go pointer that may be nil is an [option];
    - a Go [error] is [option string]: [None] is the nil error and
      [Some msg] an error whose [Error()] text is [msg];
    - a Go [int] is a [Z];
    - a function that may panic returns an [outcome];
    - objects mutated through a reference (the telemetry sink behind
      [cfg.TelemetryService], the arguments map shared with the executor)
      are threaded through explicitly. *)

From stdpp Require Import base option list strings gmap.
From Stdlib Require Import ZArith Ascii.

Set Warnings "-register-all".
Local Open Scope string_scope.

(** ** Go runtime values *)

Inductive any : Type :=
  | AnyNil
  | AnyString (s : string)
  | AnyBool (b : bool)
  | AnyInt (z : Z)
  | AnySlice (l : list any)
  | AnyMap (m : option (gmap string any))
  | AnyOther (ty : string).

(** [map[string]interface{}], nil or allocated. *)
Definition go_map : Type := option (gmap string any).

(** A Go [error]: nil, or a value with its [Error()] text. *)
Definition error : Type := option string.

(** What a call does: it returns, or the goroutine panics. *)
Inductive outcome (A : Type) : Type :=
  | Returned (a : A)
  | Panicked (msg : string).
Arguments Returned {A} a.
Arguments Panicked {A} msg.

Definition returns {A} (o : outcome A) : Prop :=
  match o with Returned _ => True | Panicked _ => False end.

Definition panics {A} (o : outcome A) : Prop :=
  match o with Returned _ => False | Panicked _ => True end.

(** Sequencing stops at the first panic; [x ← c; k] is stdpp's notation
    for [mbind]. *)
#[global] Instance outcome_ret : MRet outcome := λ A a, Returned a.
#[global] Instance outcome_bind : MBind outcome := λ A B k o,
  match o with
  | Returned a => k a
  | Panicked msg => Panicked msg
  end.

(** [fmt]'s [%T]: the name of the dynamic type. *)
Definition typeName (v : any) : string :=
  match v with
  | AnyNil => "<nil>"
  | AnyString _ => "string"
  | AnyBool _ => "bool"
  | AnyInt _ => "int"
  | AnySlice _ => "[]interface {}"
  | AnyMap _ => "map[string]interface {}"
  | AnyOther ty => ty
  end.

(** [v, ok := x.(map[string]interface{})]: the assertion looks at the
    dynamic type only, so a nil map of that type passes with [ok = true]. *)
Definition assertMap (x : any) : go_map * bool :=
  match x with
  | AnyMap m => (m, true)
  | _ => (None, false)
  end.

(** [s, _ := x.(string)]. *)
Definition assertString (x : any) : string * bool :=
  match x with
  | AnyString s => (s, true)
  | _ => ("", false)
  end.

(** [m[k]]: reading a missing key, or any key of a nil map, gives the
    zero value of [interface{}]. *)
Definition mapIndex (m : go_map) (k : string) : any :=
  match m with
  | Some m' => default AnyNil (m' !! k)
  | None => AnyNil
  end.

(** [m[k] = v]: a write to a nil map panics. *)
Definition mapAssign (m : go_map) (k : string) (v : any) : outcome go_map :=
  match m with
  | Some m' => Returned (Some (<[k := v]> m'))
  | None => Panicked "assignment to entry in nil map"
  end.

(** ** Package security: access tiers and the two policy checks

    The package's source file is not part of the material at hand; the
    tier constants are the ones [ParseFlags] assigns, and the two checks
    follow the contracts of the design document. *)

Module security.

(** Modelled from the spec: the type [AccessLevel] (its declaration is
    missing), an ordered enum with the three tiers named by the
    constants that [ParseFlags] uses. *)
Inductive AccessLevel : Type :=
  | AccessLevelReadOnly
  | AccessLevelReadWrite
  | AccessLevelAdmin.

#[global] Instance AccessLevel_eq_dec : EqDecision AccessLevel.
Proof. solve_decision. Defined.

(** Modelled from the spec: the failure kinds of the two checks (the
    error taxonomy of the missing package). *)
Inductive ErrorKind : Type :=
  | ToolNotEnabled
  | AccessDenied
  | NamespaceNotAllowed.

(** The order [ReadOnly < ReadWrite < Admin] as the design document
    writes it: the two adjacent steps, closed under transitivity. *)
Inductive level_lt : AccessLevel → AccessLevel → Prop :=
  | lt_readonly_readwrite : level_lt AccessLevelReadOnly AccessLevelReadWrite
  | lt_readwrite_admin : level_lt AccessLevelReadWrite AccessLevelAdmin
  | lt_step a b c : level_lt a b → level_lt b c → level_lt a c.

Definition level_le (a b : AccessLevel) : Prop := a = b ∨ level_lt a b.

(** Position of a tier in the enum. *)
Definition tier (l : AccessLevel) : nat :=
  match l with
  | AccessLevelReadOnly => 0
  | AccessLevelReadWrite => 1
  | AccessLevelAdmin => 2
  end.

(** Modelled from the spec: [Check(requested, required)] of the Access
    Policy Model (the function is missing). It is a pure function of the
    two levels and fails with [AccessDenied] exactly in the case the
    error table gives: requested level < required level. [None] is
    "ok". *)
Definition Check (requested required : AccessLevel) : option ErrorKind :=
  if (tier requested <? tier required)%nat then Some AccessDenied else None.

(** Modelled from the spec: the [SecurityConfig] struct (its
    declaration is missing): the granted level and the namespace
    allow-list, where the empty set means that all namespaces are
    allowed. *)
Record SecurityConfig : Type := {
  AccessLevel_ : AccessLevel;
  allowedNamespaces : gset string;
}.

(** Modelled from the spec: [NewSecurityConfig()] (the constructor is
    missing). It returns a fresh, unrestricted configuration: no
    namespace allow-list. The initial tier is the lowest one, the tier
    of the default ["readonly"] flag value; [ParseFlags] overwrites it
    before it is read. *)
Definition NewSecurityConfig : SecurityConfig :=
  {| AccessLevel_ := AccessLevelReadOnly; allowedNamespaces := ∅ |}.

(** What the Namespace Scope Guard does for a request that names no
    namespace while an allow-list is configured: the design document
    leaves the choice between the two policies to the implementer. *)
Inductive UnspecifiedPolicy : Type :=
  | RejectAmbiguous
  | DefaultToSoleNamespace.

(** Modelled from the spec: [Check(requestedNamespace, allowed)] of the
    Namespace Scope Guard (the function is missing).
    - an empty allow-list permits every namespace, named or not;
    - a named namespace outside a non-empty allow-list fails;
    - no namespace under a non-empty allow-list follows [policy]. *)
Definition CheckNamespace (policy : UnspecifiedPolicy)
    (requestedNamespace : option string) (allowed : gset string)
    : option ErrorKind :=
  if decide (allowed = ∅) then None
  else match requestedNamespace with
       | Some ns =>
           if decide (ns ∈ allowed) then None else Some NamespaceNotAllowed
       | None =>
           match policy with
           | RejectAmbiguous => Some NamespaceNotAllowed
           | DefaultToSoleNamespace =>
               if decide (size allowed = 1%nat) then None
               else Some NamespaceNotAllowed
           end
       end.

(** A request may reference several namespaces; every one of them has
    to pass, and the first violation fails the whole request. *)
Fixpoint CheckNamespaces (policy : UnspecifiedPolicy)
    (referenced : list (option string)) (allowed : gset string)
    : option ErrorKind :=
  match referenced with
  | [] => None
  | ns :: rest =>
      match CheckNamespace policy ns allowed with
      | Some e => Some e
      | None => CheckNamespaces policy rest allowed
      end
  end.

End security.

(** ** Package telemetry *)

Module telemetry.

(** The one method of the Go interface [TelemetryInterface] that the tool
    handlers call. A sink is an object behind a reference; the method
    takes it in one state and leaves it in the next. The [context]
    argument carries no data that the sinks below look at. *)
Class TelemetryInterface (T : Type) : Type := {
  TrackToolInvocation : T → string → string → bool → T;
}.

(** The struct [Config], as the tests of the package build it. *)
Record Config : Type := {
  ServiceName : string;
  ServiceVersion : string;
  DeviceID : string;
  Enabled : bool;
  OTLPEndpoint : string;
  instrumentationKey : string;
}.

Definition SetOTLPEndpoint (endpoint : string) (c : Config) : Config :=
  {| ServiceName := ServiceName c; ServiceVersion := ServiceVersion c;
     DeviceID := DeviceID c; Enabled := Enabled c;
     OTLPEndpoint := endpoint;
     instrumentationKey := instrumentationKey c |}.

(** An attribute value of a span. *)
Inductive attribute : Type :=
  | attrString (key value : string)
  | attrBool (key : string) (value : bool).

(** What a service hands to its exporters: a span with its attributes
    (OTLP) or a trace event with its properties (Application
    Insights). *)
Inductive emitted : Type :=
  | Span (name : string) (attributes : list attribute)
  | TraceTelemetry (message : string) (properties : list (string * string)).

(** The Application Insights client: its key and common properties. *)
Record TelemetryClient : Type := {
  clientKey : string;
  CommonProperties : list (string * string);
}.

(** The struct [Service]. [tracer] is named after the service;
    [tracerProvider] holds the number of span processors it was built
    with; [sent] is everything handed to the exporters so far. *)
Record Service : Type := {
  config : Config;
  tracer : option string;
  tracerProvider : option nat;
  appInsightsClient : option TelemetryClient;
  isInitialized : bool;
  sent : list emitted;
}.

Definition NewService (config : Config) : Service :=
  {| config := config; tracer := None; tracerProvider := None;
     appInsightsClient := None; isInitialized := false; sent := [] |}.

Definition send (s : Service) (es : list emitted) : Service :=
  {| config := config s; tracer := tracer s;
     tracerProvider := tracerProvider s;
     appInsightsClient := appInsightsClient s;
     isInitialized := isInitialized s; sent := sent s ++ es |}.

(** [s'] is [s] with at most two more records sent, and nothing else
    changed. *)
Definition extends (s s' : Service) : Prop :=
  config s' = config s ∧ tracer s' = tracer s
  ∧ tracerProvider s' = tracerProvider s
  ∧ appInsightsClient s' = appInsightsClient s
  ∧ isInitialized s' = isInitialized s
  ∧ ∃ es, sent s' = (sent s ++ es)%list ∧ (length es ≤ 2)%nat.

(** [fmt.Sprintf("%v", b)]. *)
Definition formatBool (b : bool) : string := if b then "true" else "false".

Section service.
(** The two predicates of [Config] whose bodies are not at hand. *)
Variables HasOTLP HasApplicationInsights : Config → bool.

(** What the OpenTelemetry SDK answers during set-up. *)
Record sdk : Type := {
  resourceNew : error;
  exporterNew : error;
}.

Definition initializeTracing (env : sdk) (s : Service) : Service * error :=
  if negb (HasOTLP (config s)) then (s, None)
  else match resourceNew env with
       | Some e => (s, Some ("failed to create resource: " ++ e))
       | None =>
           let exporters : nat :=
             match exporterNew env with Some _ => 0 | None => 1 end in
           ({| config := config s;
               tracer := Some (ServiceName (config s));
               tracerProvider := Some exporters;
               appInsightsClient := appInsightsClient s;
               isInitialized := isInitialized s; sent := sent s |}, None)
       end.

Definition initializeApplicationInsights (s : Service) : Service :=
  if negb (Enabled (config s)) then s
  else {| config := config s; tracer := tracer s;
          tracerProvider := tracerProvider s;
          appInsightsClient := Some
            {| clientKey := instrumentationKey (config s);
               CommonProperties :=
                 [("service.name", ServiceName (config s));
                  ("service.version", ServiceVersion (config s));
                  ("device.id", DeviceID (config s))] |};
          isInitialized := isInitialized s; sent := sent s |}.

Definition Initialize (env : sdk) (s : Service) : Service * error :=
  match initializeTracing env s with
  | (s1, Some e) => (s1, Some ("failed to initialize tracing: " ++ e))
  | (s1, None) =>
      let s2 := if HasApplicationInsights (config s1)
                then initializeApplicationInsights s1 else s1 in
      ({| config := config s2; tracer := tracer s2;
          tracerProvider := tracerProvider s2;
          appInsightsClient := appInsightsClient s2;
          isInitialized := true; sent := sent s2 |}, None)
  end.

(** A span that ends is handed to the span processors of the tracer
    provider, each of which feeds one exporter. A provider built after
    the exporter could not be created has no processor, and a span
    ending under it reaches no exporter. *)
Definition ended (s : Service) (span : list emitted) : list emitted :=
  match tracerProvider s with
  | Some (S _) => span
  | _ => []
  end.

(** [Service.TrackToolInvocation]. The span is started first, and its
    [End] is deferred: it is handed on when the method returns, after
    the event has gone to the Application Insights client. *)
Definition Service_TrackToolInvocation (s : Service)
    (toolName operation : string) (success : bool) : Service :=
  if negb (isInitialized s) then s
  else
    let span :=
      if HasOTLP (config s) && bool_decide (tracer s ≠ None)
      then [Span "ToolInvocation"
              [attrString "tool.name" toolName;
               attrString "tool.operation" operation;
               attrBool "tool.success" success]]
      else [] in
    let event :=
      if HasApplicationInsights (config s)
         && bool_decide (appInsightsClient s ≠ None)
      then [TraceTelemetry "ToolInvocation"
              [("tool.name", toolName);
               ("tool.operation", operation);
               ("tool.success", formatBool success)]]
      else [] in
    send s (event ++ ended s span).

(** [Service.TrackServiceStartup], with the same deferred [End]. *)
Definition Service_TrackServiceStartup (s : Service) : Service :=
  if negb (isInitialized s) then s
  else
    let span :=
      if HasOTLP (config s) && bool_decide (tracer s ≠ None)
      then [Span "ServiceStartup"
              [attrString "service.event" "startup";
               attrString "service.name" (ServiceName (config s));
               attrString "service.version" (ServiceVersion (config s))]]
      else [] in
    let event :=
      if HasApplicationInsights (config s)
         && bool_decide (appInsightsClient s ≠ None)
      then [TraceTelemetry "ServiceStartup"
              [("service.name", ServiceName (config s));
               ("service.version", ServiceVersion (config s))]]
      else [] in
    send s (event ++ ended s span).

(** The span [StartActivity] hands back: one that the service's tracer
    started under the activity's name, or the span found in the context,
    which records nothing. *)
Inductive activity : Type :=
  | SpanFromContext
  | Started (tracerName activityName : string).

(** [Service.StartActivity]. *)
Definition StartActivity (s : Service) (activityName : string) : activity :=
  if negb (isInitialized s) || bool_decide (tracer s = None)
  then SpanFromContext
  else match tracer s with
       | Some t => Started t activityName
       | None => SpanFromContext
       end.

(** What [Shutdown] does: the service as it is left, whether the
    Application Insights channel was closed and waited for, whether the
    tracer provider was asked to shut down, and the returned error. *)
Record shutdown : Type := {
  service_left : Service;
  channelClosed : bool;
  providerAsked : bool;
  shutdown_err : error;
}.

(** [Service.Shutdown]; [providerShutdown] is the answer of
    [tracerProvider.Shutdown(ctx)]. *)
Definition Shutdown (providerShutdown : error) (s : Service) : shutdown :=
  if negb (isInitialized s)
  then {| service_left := s; channelClosed := false; providerAsked := false;
          shutdown_err := None |}
  else
    let closed := HasApplicationInsights (config s)
                  && bool_decide (appInsightsClient s ≠ None) in
    match tracerProvider s, providerShutdown with
    | Some _, Some e =>
        {| service_left := s; channelClosed := closed; providerAsked := true;
           shutdown_err :=
             Some ("failed to shutdown tracer provider: " ++ e) |}
    | provider, _ =>
        {| service_left :=
             {| config := config s; tracer := tracer s;
                tracerProvider := tracerProvider s;
                appInsightsClient := appInsightsClient s;
                isInitialized := false; sent := sent s |};
           channelClosed := closed;
           providerAsked := bool_decide (provider ≠ None);
           shutdown_err := None |}
    end.

#[local] Instance Service_TelemetryInterface : TelemetryInterface Service :=
  {| TrackToolInvocation := Service_TrackToolInvocation |}.
End service.

End telemetry.

(** ** Package config *)

Module config.
Import security.

(** The struct [ConfigData]. [T] is the type of the object behind the
    interface value [TelemetryService]; [None] is the nil interface. *)
Record ConfigData (T : Type) : Type := {
  AdditionalTools : option (gmap string bool);
  Timeout : Z;
  SecurityConfig_ : option SecurityConfig;
  Transport : string;
  Host : string;
  Port : Z;
  AccessLevel : string;
  AllowNamespaces : string;
  OTLPEndpoint : string;
  TelemetryService : option T;
}.
Arguments AdditionalTools {T} _.
Arguments Timeout {T} _.
Arguments SecurityConfig_ {T} _.
Arguments Transport {T} _.
Arguments Host {T} _.
Arguments Port {T} _.
Arguments AccessLevel {T} _.
Arguments AllowNamespaces {T} _.
Arguments OTLPEndpoint {T} _.
Arguments TelemetryService {T} _.

(** [NewConfig]. The fields it does not name keep their zero value. *)
Definition NewConfig {T : Type} : ConfigData T :=
  {| AdditionalTools := Some ∅;
     Timeout := 60;
     SecurityConfig_ := Some NewSecurityConfig;
     Transport := "stdio";
     Host := "";
     Port := 8000;
     AccessLevel := "readonly";
     AllowNamespaces := "";
     OTLPEndpoint := "";
     TelemetryService := None |}.

(** The flags found on the command line; [None] is a flag that was not
    given. *)
Record CommandLine : Type := {
  flag_transport : option string;
  flag_host : option string;
  flag_port : option Z;
  flag_timeout : option Z;
  flag_additional_tools : option string;
  flag_access_level : option string;
  flag_allow_namespaces : option string;
  flag_otlp_endpoint : option string;
}.

Definition noFlags : CommandLine :=
  {| flag_transport := None; flag_host := None; flag_port := None;
     flag_timeout := None; flag_additional_tools := None;
     flag_access_level := None; flag_allow_namespaces := None;
     flag_otlp_endpoint := None |}.

(** The registrations followed by [flag.Parse()]: every bound field
    ends up with the value on the command line, or with the default of
    its registration. *)
Definition bindFlags {T} (cl : CommandLine) (cfg : ConfigData T)
    : ConfigData T :=
  {| AdditionalTools := AdditionalTools cfg;
     Timeout := default 60%Z (flag_timeout cl);
     SecurityConfig_ := SecurityConfig_ cfg;
     Transport := default "stdio" (flag_transport cl);
     Host := default "127.0.0.1" (flag_host cl);
     Port := default 8000%Z (flag_port cl);
     AccessLevel := default "readonly" (flag_access_level cl);
     AllowNamespaces := default "" (flag_allow_namespaces cl);
     OTLPEndpoint := default "" (flag_otlp_endpoint cl);
     TelemetryService := TelemetryService cfg |}.

Definition setSecurityConfig {T} (sc : SecurityConfig) (cfg : ConfigData T)
    : ConfigData T :=
  {| AdditionalTools := AdditionalTools cfg; Timeout := Timeout cfg;
     SecurityConfig_ := Some sc;
     Transport := Transport cfg; Host := Host cfg; Port := Port cfg;
     AccessLevel := AccessLevel cfg;
     AllowNamespaces := AllowNamespaces cfg;
     OTLPEndpoint := OTLPEndpoint cfg;
     TelemetryService := TelemetryService cfg |}.

Definition setAdditionalTools {T} (tools : gmap string bool)
    (cfg : ConfigData T) : ConfigData T :=
  {| AdditionalTools := Some tools; Timeout := Timeout cfg;
     SecurityConfig_ := SecurityConfig_ cfg;
     Transport := Transport cfg; Host := Host cfg; Port := Port cfg;
     AccessLevel := AccessLevel cfg;
     AllowNamespaces := AllowNamespaces cfg;
     OTLPEndpoint := OTLPEndpoint cfg;
     TelemetryService := TelemetryService cfg |}.

Definition setTelemetryService {T} (svc : option T) (cfg : ConfigData T)
    : ConfigData T :=
  {| AdditionalTools := AdditionalTools cfg; Timeout := Timeout cfg;
     SecurityConfig_ := SecurityConfig_ cfg;
     Transport := Transport cfg; Host := Host cfg; Port := Port cfg;
     AccessLevel := AccessLevel cfg;
     AllowNamespaces := AllowNamespaces cfg;
     OTLPEndpoint := OTLPEndpoint cfg;
     TelemetryService := svc |}.

(** [cfg.SecurityConfig.AccessLevel = level]: a store through the
    pointer, which panics when the pointer is nil. *)
Definition storeAccessLevel {T} (level : security.AccessLevel)
    (cfg : ConfigData T) : outcome (ConfigData T) :=
  match SecurityConfig_ cfg with
  | Some sc =>
      Returned (setSecurityConfig
        {| AccessLevel_ := level;
           allowedNamespaces := allowedNamespaces sc |} cfg)
  | None => Panicked "invalid memory address or nil pointer dereference"
  end.

(** The [switch cfg.AccessLevel] of [ParseFlags]: the tier that the
    matching case stores, [None] for the [default] case. *)
Definition tierOf (level : string) : option security.AccessLevel :=
  if decide (level = "readonly") then Some AccessLevelReadOnly
  else if decide (level = "readwrite") then Some AccessLevelReadWrite
  else if decide (level = "admin") then Some AccessLevelAdmin
  else None.

Definition availableTools : list string :=
  ["kubectl"; "helm"; "cilium"; "hubble"].

(** The loop of [IsToolSupported] over a list of tools. *)
Fixpoint rangeHas (tools : list string) (tool : string) : bool :=
  match tools with
  | [] => false
  | t :: rest => if decide (t = tool) then true else rangeHas rest tool
  end.

(** [IsToolSupported]. *)
Definition IsToolSupported (tool : string) : bool :=
  rangeHas availableTools tool.

Section flags.
Context {T : Type}.

(** [SecurityConfig.SetAllowedNamespaces], whose body is not at hand,
    and the two functions of Go's [strings] package. *)
Variable SetAllowedNamespaces : string → SecurityConfig → SecurityConfig.
Variable Split : string → string → list string.
Variable TrimSpace : string → string.

Definition callSetAllowedNamespaces (namespaces : string)
    (cfg : ConfigData T) : outcome (ConfigData T) :=
  match SecurityConfig_ cfg with
  | Some sc =>
      Returned (setSecurityConfig (SetAllowedNamespaces namespaces sc) cfg)
  | None => Panicked "invalid memory address or nil pointer dereference"
  end.

(** The loop over the comma-separated tool names:
    [cfg.AdditionalTools[tool] = true] for every non-blank one. *)
Fixpoint enableTools (tools : list string) (cfg : ConfigData T)
    : outcome (ConfigData T) :=
  match tools with
  | [] => Returned cfg
  | tool :: rest =>
      let tool := TrimSpace tool in
      if decide (tool = "") then enableTools rest cfg
      else match AdditionalTools cfg with
           | Some m =>
               enableTools rest (setAdditionalTools (<[tool := true]> m) cfg)
           | None => Panicked "assignment to entry in nil map"
           end
  end.

(** The names the loop of [enableTools] stores: the trimmed entries that
    are not blank, in order. *)
Definition toolNames (tools : list string) : list string :=
  filter (λ tool, tool ≠ "") (TrimSpace <$> tools).

(** [ConfigData.ParseFlags], as a function of the command line and of
    the configuration it is called on. It gives the configuration
    as it is left behind, and the returned error. *)
Definition ParseFlags (cl : CommandLine) (cfg : ConfigData T)
    : outcome (ConfigData T * error) :=
  let cfg := bindFlags cl cfg in
  let additionalTools := default "" (flag_additional_tools cl) in
  match tierOf (AccessLevel cfg) with
  | None =>
      Returned (cfg, Some ("invalid access level '" ++ AccessLevel cfg
                    ++ "'. Valid values are: readonly, readwrite, admin"))
  | Some level =>
      cfg ← storeAccessLevel level cfg;
      cfg ← (if decide (AllowNamespaces cfg ≠ "")
             then callSetAllowedNamespaces (AllowNamespaces cfg) cfg
             else Returned cfg);
      cfg ← (if decide (additionalTools ≠ "")
             then enableTools (Split additionalTools ",") cfg
             else Returned cfg);
      Returned (cfg, None)
  end.
End flags.

Section telemetry_setup.
Variables HasOTLP HasApplicationInsights : telemetry.Config → bool.
(** [telemetry.NewConfig], which reads the process environment. *)
Variable telemetry_NewConfig : string → string → telemetry.Config.

(** [ConfigData.InitializeTelemetry]. A failed [Initialize] is logged
    and the service stays in place, uninitialized. *)
Definition InitializeTelemetry (env : telemetry.sdk)
    (serviceName serviceVersion : string)
    (cfg : ConfigData telemetry.Service) : ConfigData telemetry.Service :=
  let telemetryConfig := telemetry_NewConfig serviceName serviceVersion in
  let telemetryConfig :=
    if decide (OTLPEndpoint cfg ≠ "")
    then telemetry.SetOTLPEndpoint (OTLPEndpoint cfg) telemetryConfig
    else telemetryConfig in
  let svc := telemetry.NewService telemetryConfig in
  let svc :=
    (telemetry.Initialize HasOTLP HasApplicationInsights env svc).1 in
  let svc :=
    telemetry.Service_TrackServiceStartup HasOTLP HasApplicationInsights
      svc in
  setTelemetryService (Some svc) cfg.
End telemetry_setup.

End config.

(** ** Package mcp: requests and results of a tool call *)

Module mcp.

Record CallToolParams : Type := {
  Name : string;
  Arguments : any;
}.

Record CallToolRequest : Type := {
  Params : CallToolParams;
}.

Record TextContent : Type := {
  Type_ : string;
  Text : string;
}.

Record CallToolResult : Type := {
  Content : list TextContent;
  IsError : bool;
}.

Definition NewToolResultText (text : string) : CallToolResult :=
  {| Content := [{| Type_ := "text"; Text := text |}]; IsError := false |}.

Definition NewToolResultError (text : string) : CallToolResult :=
  {| Content := [{| Type_ := "text"; Text := text |}]; IsError := true |}.

End mcp.

(** ** Package tools: the handler adapters *)

Module tools.
Import telemetry config mcp.

(** What one call of [CommandExecutor.Execute] does: the text and the
    error it returns, and the arguments map as it leaves it (the map is
    passed by reference). *)
Record executed : Type := {
  args_left : go_map;
  output : string;
  err : error;
}.

(** The calls a handler makes, in order. *)
Inductive call : Type :=
  | CallExecute (args : go_map)
  | CallTrackToolInvocation (toolName operation : string) (success : bool).

Definition isTrack (c : call) : bool :=
  match c with CallTrackToolInvocation _ _ _ => true | _ => false end.

Definition isExecute (c : call) : bool :=
  match c with CallExecute _ => true | _ => false end.

(** What one run of a handler leaves behind: the two returned values,
    the sink behind [cfg.TelemetryService], the request's arguments as
    the caller sees them afterwards, and the calls made. *)
Record run (T : Type) : Type := {
  result : option CallToolResult;
  returned_err : error;
  telemetry_left : option T;
  arguments_left : any;
  calls : list call;
}.
Arguments result {T} _.
Arguments returned_err {T} _.
Arguments telemetry_left {T} _.
Arguments arguments_left {T} _.
Arguments calls {T} _.

Section handlers.
Context {T : Type} `{!TelemetryInterface T}.

(** The interface [CommandExecutor]: [Execute(args, cfg)]. An executor
    returns; it may write to the arguments map, and it reads the
    configuration without writing to it or calling its sink. *)
Definition CommandExecutor : Type := go_map → ConfigData T → executed.

(** [if cfg.TelemetryService != nil { cfg.TelemetryService.
    TrackToolInvocation(ctx, toolName, operation, success) }]. *)
Definition track (cfg : ConfigData T) (toolName operation : string)
    (success : bool) : option T * list call :=
  match TelemetryService cfg with
  | Some sink =>
      (Some (TrackToolInvocation sink toolName operation success),
       [CallTrackToolInvocation toolName operation success])
  | None => (None, [])
  end.

(** [CreateToolHandler(executor, cfg)], applied to a request. [cfg] is
    the configuration object as it stands when the request comes in. *)
Definition CreateToolHandler (executor : CommandExecutor)
    (cfg : ConfigData T) (req : CallToolRequest) : outcome (run T) :=
  let '(args, ok) := assertMap (Arguments (Params req)) in
  if negb ok then
    let err := "arguments must be a map[string]interface{}, got "
               ++ typeName (Arguments (Params req)) in
    let '(sink, tracked) := track cfg (Name (Params req)) "" false in
    Returned {| result := Some (NewToolResultError err);
                returned_err := None;
                telemetry_left := sink;
                arguments_left := Arguments (Params req);
                calls := tracked |}
  else
    let ex := executor args cfg in
    let operation :=
      (assertString (mapIndex (args_left ex) "operation")).1 in
    let '(sink, tracked) :=
      track cfg (Name (Params req)) operation
        (bool_decide (err ex = None)) in
    Returned {| result :=
                  match err ex with
                  | Some msg => Some (NewToolResultError msg)
                  | None => Some (NewToolResultText (output ex))
                  end;
                returned_err := None;
                telemetry_left := sink;
                arguments_left := AnyMap (args_left ex);
                calls := CallExecute args :: tracked |}.

(** [CreateToolHandlerWithName(executor, cfg, toolName)], applied to a
    request. *)
Definition CreateToolHandlerWithName (executor : CommandExecutor)
    (cfg : ConfigData T) (toolName : string) (req : CallToolRequest)
    : outcome (run T) :=
  let '(args, ok) := assertMap (Arguments (Params req)) in
  if negb ok then
    let err := "arguments must be a map[string]interface{}, got "
               ++ typeName (Arguments (Params req)) in
    let '(sink, tracked) := track cfg (Name (Params req)) "" false in
    Returned {| result := Some (NewToolResultError err);
                returned_err := None;
                telemetry_left := sink;
                arguments_left := Arguments (Params req);
                calls := tracked |}
  else
    args ← mapAssign args "_tool_name" (AnyString toolName);
    let ex := executor args cfg in
    let operation :=
      (assertString (mapIndex (args_left ex) "operation")).1 in
    let '(sink, tracked) :=
      track cfg toolName operation (bool_decide (err ex = None)) in
    Returned {| result :=
                  match err ex with
                  | Some msg => Some (NewToolResultError msg)
                  | None => Some (NewToolResultText (output ex))
                  end;
                returned_err := None;
                telemetry_left := sink;
                arguments_left := AnyMap (args_left ex);
                calls := CallExecute args :: tracked |}.
End handlers.

(** The executor and the sink of the package's tests. *)
Record mockExecutor : Type := {
  shouldError : bool;
  mock_result : string;
}.

Definition mockExecutor_Execute {T} (m : mockExecutor)
    : go_map → ConfigData T → executed :=
  λ args _,
    if shouldError m
    then {| args_left := args; output := "";
            err := Some "mock execution error" |}
    else {| args_left := args; output := mock_result m; err := None |}.

Record invocation : Type := {
  toolName : string;
  operation : string;
  success : bool;
}.

Record mockTelemetryService : Type := {
  invocations : list invocation;
}.

(** What the caller of a handler gets to see: the pair of returned
    values, or the panic. *)
Definition visible {T} (o : outcome (run T))
    : outcome (option CallToolResult * error) :=
  r ← o; Returned (result r, returned_err r).

(** The telemetry calls and the executor calls among the calls made. *)
Definition tracked (cs : list call) : list call := filter isTrack cs.
Definition executions (cs : list call) : list call := filter isExecute cs.

(** A sink is fed the telemetry calls of a run, in order. *)
Definition feed {T} `{!TelemetryInterface T} (sink : T) (cs : list call) : T :=
  foldl (λ s c, match c with
                | CallTrackToolInvocation n op ok =>
                    TrackToolInvocation s n op ok
                | CallExecute _ => s
                end) sink cs.

(** The two kinds of run a handler can make. [rejection] tracks a
    failure under the request's name and an empty operation and answers
    with the type error; [execution] calls the executor on [args],
    tracks under [name] the operation found in the map afterwards, and
    converts what the executor returned. *)
Definition rejection {T} `{!TelemetryInterface T} (cfg : ConfigData T)
    (req : CallToolRequest) : run T :=
  {| result := Some (NewToolResultError
                 ("arguments must be a map[string]interface{}, got "
                  ++ typeName (Arguments (Params req))));
     returned_err := None;
     telemetry_left := (track cfg (Name (Params req)) "" false).1;
     arguments_left := Arguments (Params req);
     calls := (track cfg (Name (Params req)) "" false).2 |}.

Definition execution {T} `{!TelemetryInterface T}
    (executor : CommandExecutor) (cfg : ConfigData T) (name : string)
    (args : go_map) : run T :=
  let ex := executor args cfg in
  let operation := (assertString (mapIndex (args_left ex) "operation")).1 in
  let success := bool_decide (err ex = None) in
  {| result := Some (match err ex with
                     | Some msg => NewToolResultError msg
                     | None => NewToolResultText (output ex)
                     end);
     returned_err := None;
     telemetry_left := (track cfg name operation success).1;
     arguments_left := AnyMap (args_left ex);
     calls := CallExecute args :: (track cfg name operation success).2 |}.

(** A run in which the sink was called once, with a success flag that
    is true exactly when the executor was called and returned no
    error. *)
Definition trackedOnce {T} `{!TelemetryInterface T}
    (executor : CommandExecutor) (cfg : ConfigData T) (sink : T)
    (r : run T) : Prop :=
  ∃ name operation success,
    tracked (calls r) = [CallTrackToolInvocation name operation success]
    ∧ telemetry_left r
      = Some (TrackToolInvocation sink name operation success)
    ∧ (success = true ↔
       ∃ args, CallExecute args ∈ calls r
               ∧ err (executor args cfg) = None).

(** A request that carries a nil [map[string]interface{}]. *)
Definition nilMapRequest (name : string) : CallToolRequest :=
  {| Params := {| Name := name; Arguments := AnyMap None |} |}.

#[global] Instance mockTelemetryService_TelemetryInterface
    : TelemetryInterface mockTelemetryService :=
  {| TrackToolInvocation := λ m toolName operation success,
       {| invocations := invocations m ++
            [{| toolName := toolName; operation := operation;
                success := success |}] |} |}.

End tools.

(** ** Byte-string instances of the library functions

    [strings.Split] for a one-byte separator and [strings.TrimSpace] for
    the ASCII white space, and a comma-splitting allow-list setter. They
    instantiate the parameters of [config.ParseFlags] on concrete
    command lines. *)

Module ascii_strings.

Fixpoint splitByte (sep : ascii) (s : string) : list string :=
  match s with
  | EmptyString => [""]
  | String c rest =>
      if decide (c = sep) then "" :: splitByte sep rest
      else match splitByte sep rest with
           | piece :: pieces => String c piece :: pieces
           | [] => [String c ""]
           end
  end.

Definition Split (s sep : string) : list string :=
  match sep with
  | String c EmptyString => splitByte c s
  | _ => [s]
  end.

Definition isSpace (c : ascii) : bool :=
  bool_decide (c ∈ [" "; "009"; "010"; "011"; "012"; "013"]%char).

Fixpoint trimLeft (s : string) : string :=
  match s with
  | String c rest => if isSpace c then trimLeft rest else s
  | EmptyString => ""
  end.

Fixpoint trimRight (s : string) : string :=
  match s with
  | String c rest =>
      match trimRight rest with
      | EmptyString => if isSpace c then "" else String c ""
      | kept => String c kept
      end
  | EmptyString => ""
  end.

Definition TrimSpace (s : string) : string := trimRight (trimLeft s).

Definition SetAllowedNamespaces (namespaces : string)
    (sc : security.SecurityConfig) : security.SecurityConfig :=
  {| security.AccessLevel_ := security.AccessLevel_ sc;
     security.allowedNamespaces :=
       list_to_set (filter (λ ns, ns ≠ "")
                      (TrimSpace <$> Split namespaces ",")) |}.

End ascii_strings.

(** ** The fixtures of the handler tests *)

Module testdata.
Import config mcp tools.

Definition cfgMock : ConfigData mockTelemetryService :=
  setTelemetryService (Some {| invocations := [] |}) NewConfig.

Definition request (name operation : string) : CallToolRequest :=
  {| Params :=
       {| Name := name;
          Arguments :=
            AnyMap (Some (<["operation" := AnyString operation]>
                            (<["arg1" := AnyString "value1"]> ∅))) |} |}.

Definition succeeding : CommandExecutor (T:=mockTelemetryService) :=
  mockExecutor_Execute
    {| shouldError := false; mock_result := "success result" |}.

Definition failing : CommandExecutor (T:=mockTelemetryService) :=
  mockExecutor_Execute {| shouldError := true; mock_result := "" |}.

(** What a test looks at: the returned pair and the sink. *)
Definition seen {T} (o : outcome (run T))
    : outcome (option CallToolResult * error * option T) :=
  r ← o; Returned (result r, returned_err r, telemetry_left r).

End testdata.

(** * Properties *)

(** ** The access tiers *)

Section access_policy.
Import security.

Lemma level_lt_tier a b : level_lt a b → (tier a < tier b)%nat.
Proof. induction 1; simpl in *; lia. Qed.

Lemma tier_level_lt a b : (tier a < tier b)%nat → level_lt a b.
Proof.
  destruct a, b; simpl; intros Hlt; try lia.
  - constructor.
  - eapply lt_step; constructor.
  - constructor.
Qed.

Lemma level_le_tier a b : level_le a b ↔ (tier a ≤ tier b)%nat.
Proof.
  split.
  - intros [-> | Hlt%level_lt_tier]; lia.
  - intros Hle. destruct (decide (a = b)) as [-> | Hne]; [by left |].
    right. apply tier_level_lt.
    destruct a, b; simpl in *; try lia; congruence.
Qed.

(** The relation is a total order on the three tiers. *)
Lemma level_le_total a b : level_le a b ∨ level_le b a.
Proof. rewrite !level_le_tier. lia. Qed.

Lemma level_le_antisym a b : level_le a b → level_le b a → a = b.
Proof.
  rewrite !level_le_tier. destruct a, b; simpl; intros; try lia; done.
Qed.

Lemma level_le_trans a b c : level_le a b → level_le b c → level_le a c.
Proof. rewrite !level_le_tier. lia. Qed.

Lemma level_chain :
  level_lt AccessLevelReadOnly AccessLevelReadWrite
  ∧ level_lt AccessLevelReadWrite AccessLevelAdmin
  ∧ ¬ level_lt AccessLevelAdmin AccessLevelReadOnly.
Proof.
  split_and!; [constructor .. |].
  intros Hlt%level_lt_tier. simpl in Hlt. lia.
Qed.

(** C4. For every pair of a requested and a required access level,
    [Check] permits (returns no error) exactly when the required level
    is below or equal to the requested one in the order
    ReadOnly < ReadWrite < Admin, and in every other case it fails with
    [AccessDenied]. *)
Theorem Check_permits_iff_requested_ge_required :
  ∀ requested required : AccessLevel,
    (Check requested required = None ↔ level_le required requested)
    ∧ (Check requested required = Some AccessDenied
       ↔ ¬ level_le required requested).
Proof.
  intros requested required. rewrite level_le_tier. unfold Check.
  destruct (tier requested <? tier required)%nat eqn:Hcmp.
  - apply Nat.ltb_lt in Hcmp. split; split; intros; try done; lia.
  - apply Nat.ltb_ge in Hcmp. split; split; intros; try done; lia.
Qed.
End access_policy.

(** ** The configuration *)

Section configuration.
Import security config.
Context {T : Type}.

(** C8. A configuration fresh from [NewConfig] has a timeout of 60
    seconds, the access level "readonly", the transport "stdio", the
    port 8000, an allocated and empty map of additional tools, and a
    non-nil security configuration. *)
Theorem NewConfig_defaults :
  Timeout (@NewConfig T) = 60%Z
  ∧ AccessLevel (@NewConfig T) = "readonly"
  ∧ Transport (@NewConfig T) = "stdio"
  ∧ Port (@NewConfig T) = 8000%Z
  ∧ (∃ tools, AdditionalTools (@NewConfig T) = Some tools
              ∧ ∀ tool, tools !! tool = None)
  ∧ is_Some (SecurityConfig_ (@NewConfig T)).
Proof.
  split_and!; try reflexivity.
  - exists ∅. split; [reflexivity | apply lookup_empty].
  - by eexists.
Qed.
End configuration.

Section flag_parsing.
Import security config.
Context {T : Type}.
Variable SetAllowedNamespaces : string → SecurityConfig → SecurityConfig.
Variable Split : string → string → list string.
Variable TrimSpace : string → string.

Abbreviation ParseFlags :=
  (ParseFlags (T:=T) SetAllowedNamespaces Split TrimSpace).

(** The loop over the additional tools touches the tools map only, and
    runs to its end on an allocated map. *)
Lemma enableTools_returns tools (cfg : ConfigData T) :
  is_Some (AdditionalTools cfg) →
  ∃ cfg', enableTools TrimSpace tools cfg = Returned cfg'
          ∧ SecurityConfig_ cfg' = SecurityConfig_ cfg
          ∧ is_Some (AdditionalTools cfg').
Proof.
  revert cfg. induction tools as [| tool rest IH]; intros cfg Hmap; simpl.
  - by exists cfg.
  - destruct (decide (TrimSpace tool = "")) as [_ | _]; [by apply IH |].
    destruct Hmap as [m Hm]. rewrite Hm.
    destruct (IH (setAdditionalTools (<[TrimSpace tool := true]> m) cfg))
      as (cfg' & Hrun & Hsec & Htools); [by eexists |].
    exists cfg'. by rewrite Hrun.
Qed.

Lemma tierOf_None level :
  tierOf level = None
  ↔ level ≠ "readonly" ∧ level ≠ "readwrite" ∧ level ≠ "admin".
Proof.
  unfold tierOf.
  destruct (decide (level = "readonly")) as [-> | ?];
    [split; [done | by intros (? & _)] |].
  destruct (decide (level = "readwrite")) as [-> | ?];
    [split; [done | by intros (_ & ? & _)] |].
  destruct (decide (level = "admin")) as [-> | ?];
    [split; [done | by intros (_ & _ & ?)] |].
  done.
Qed.

(** An access-level string outside the three names: [ParseFlags] returns
    the error, and the security configuration is as it was. *)
Lemma ParseFlags_invalid cl (cfg : ConfigData T) :
  tierOf (default "readonly" (flag_access_level cl)) = None →
  ParseFlags cl cfg =
    Returned (bindFlags cl cfg,
              Some ("invalid access level '"
                    ++ default "readonly" (flag_access_level cl)
                    ++ "'. Valid values are: readonly, readwrite, admin")).
Proof.
  intros Hnone. unfold config.ParseFlags. cbn [AccessLevel bindFlags].
  by rewrite Hnone.
Qed.

(** One of the three names: [ParseFlags] returns no error, and the
    security configuration holds the tier, and the allow-list that
    [SetAllowedNamespaces] makes of a non-empty flag value. *)
Lemma ParseFlags_valid cl (cfg : ConfigData T) level sc :
  tierOf (default "readonly" (flag_access_level cl)) = Some level →
  SecurityConfig_ cfg = Some sc →
  is_Some (AdditionalTools cfg) →
  ∃ cfg', ParseFlags cl cfg = Returned (cfg', None)
    ∧ SecurityConfig_ cfg' =
        Some (let sc := {| AccessLevel_ := level;
                           allowedNamespaces := allowedNamespaces sc |} in
              if decide (default "" (flag_allow_namespaces cl) ≠ "")
              then SetAllowedNamespaces
                     (default "" (flag_allow_namespaces cl)) sc
              else sc).
Proof.
  intros Hlevel Hsc Htools.
  unfold config.ParseFlags, storeAccessLevel, callSetAllowedNamespaces.
  cbn [AccessLevel bindFlags]. rewrite Hlevel.
  cbn [SecurityConfig_ bindFlags]. rewrite Hsc.
  cbn [mbind outcome_bind AllowNamespaces SecurityConfig_ setSecurityConfig
       bindFlags].
  set (sc1 := {| AccessLevel_ := level;
                 allowedNamespaces := allowedNamespaces sc |}).
  assert (∀ sc2 (cfg2 : ConfigData T),
    SecurityConfig_ cfg2 = Some sc2 → is_Some (AdditionalTools cfg2) →
    ∃ cfg', (Returned cfg2 ≫= λ cfg0,
              (if decide (default "" (flag_additional_tools cl) ≠ "")
               then enableTools TrimSpace
                      (Split (default "" (flag_additional_tools cl)) ",")
                      cfg0
               else Returned cfg0) ≫= λ cfg1, Returned (cfg1, None))
            = Returned (cfg', @None string)
            ∧ SecurityConfig_ cfg' = Some sc2) as Htail.
  { intros sc2 cfg2 Hsc2 Htools2. cbn [mbind outcome_bind].
    case_decide.
    - destruct (enableTools_returns
        (Split (default "" (flag_additional_tools cl)) ",") cfg2 Htools2)
        as (cfg' & -> & Hsec & _).
      exists cfg'. split; [done | congruence].
    - by exists cfg2. }
  destruct (decide (default "" (flag_allow_namespaces cl) ≠ ""));
    by apply Htail.
Qed.

(** C7. [ParseFlags] returns an error exactly when the access-level
    string is none of "readonly", "readwrite" and "admin" (compared
    byte for byte, so the empty string and other spellings are errors);
    on each of the three names it returns no error and leaves the
    matching tier in [SecurityConfig.AccessLevel]. The configuration is
    one whose security configuration and tools map are allocated, as
    [NewConfig] makes it, and the allow-list setter does not write the
    access level. *)
Theorem ParseFlags_error_iff_access_level_invalid
    (cl : CommandLine) (cfg : ConfigData T) :
  (∀ ns sc, AccessLevel_ (SetAllowedNamespaces ns sc) = AccessLevel_ sc) →
  is_Some (SecurityConfig_ cfg) →
  is_Some (AdditionalTools cfg) →
  ∃ cfg' e,
    ParseFlags cl cfg = Returned (cfg', e)
    ∧ (is_Some e ↔ AccessLevel (bindFlags cl cfg) ≠ "readonly"
                   ∧ AccessLevel (bindFlags cl cfg) ≠ "readwrite"
                   ∧ AccessLevel (bindFlags cl cfg) ≠ "admin")
    ∧ (AccessLevel (bindFlags cl cfg) = "readonly" →
       AccessLevel_ <$> SecurityConfig_ cfg' = Some AccessLevelReadOnly)
    ∧ (AccessLevel (bindFlags cl cfg) = "readwrite" →
       AccessLevel_ <$> SecurityConfig_ cfg' = Some AccessLevelReadWrite)
    ∧ (AccessLevel (bindFlags cl cfg) = "admin" →
       AccessLevel_ <$> SecurityConfig_ cfg' = Some AccessLevelAdmin).
Proof.
  intros Hframe [sc Hsc] Htools. cbn [AccessLevel bindFlags].
  destruct (tierOf (default "readonly" (flag_access_level cl)))
    as [level |] eqn:Hlevel.
  - destruct (ParseFlags_valid cl cfg level sc Hlevel Hsc Htools)
      as (cfg' & Hrun & Hsec).
    exists cfg', None. split; [done |].
    assert (AccessLevel_ <$> SecurityConfig_ cfg' = Some level) as Hstored.
    { rewrite Hsec. cbn. by case_decide; rewrite ?Hframe. }
    rewrite Hstored. unfold tierOf in Hlevel.
    split.
    + split; [by intros [? ?] |]. intros (? & ? & ?).
      by repeat case_decide.
    + split_and!; intros Heq; rewrite Heq in Hlevel;
        by repeat case_decide; simplify_eq.
  - exists (bindFlags cl cfg), (Some ("invalid access level '"
                    ++ default "readonly" (flag_access_level cl)
                    ++ "'. Valid values are: readonly, readwrite, admin")).
    split; [by apply ParseFlags_invalid |].
    apply tierOf_None in Hlevel as (? & ? & ?).
    split; [split; [done | by eexists] |]. by split_and!.
Qed.
End flag_parsing.

(** An access level on the command line together with an allow-list and
    additional tools, on a fresh configuration. *)
Lemma ParseFlags_error_iff_access_level_invalid_witness :
  let cl := {| config.flag_transport := None; config.flag_host := None;
               config.flag_port := None; config.flag_timeout := Some 30%Z;
               config.flag_additional_tools := Some "helm, cilium";
               config.flag_access_level := Some "admin";
               config.flag_allow_namespaces := Some "dev,prod";
               config.flag_otlp_endpoint := None |} in
  ∃ cfg' e,
    config.ParseFlags ascii_strings.SetAllowedNamespaces ascii_strings.Split
      ascii_strings.TrimSpace cl (@config.NewConfig unit) = Returned (cfg', e)
    ∧ (is_Some e ↔
         config.AccessLevel (config.bindFlags cl (@config.NewConfig unit))
           ≠ "readonly"
         ∧ config.AccessLevel (config.bindFlags cl (@config.NewConfig unit))
           ≠ "readwrite"
         ∧ config.AccessLevel (config.bindFlags cl (@config.NewConfig unit))
           ≠ "admin")
    ∧ (config.AccessLevel (config.bindFlags cl (@config.NewConfig unit))
         = "readonly" →
       security.AccessLevel_ <$> config.SecurityConfig_ cfg'
         = Some security.AccessLevelReadOnly)
    ∧ (config.AccessLevel (config.bindFlags cl (@config.NewConfig unit))
         = "readwrite" →
       security.AccessLevel_ <$> config.SecurityConfig_ cfg'
         = Some security.AccessLevelReadWrite)
    ∧ (config.AccessLevel (config.bindFlags cl (@config.NewConfig unit))
         = "admin" →
       security.AccessLevel_ <$> config.SecurityConfig_ cfg'
         = Some security.AccessLevelAdmin).
Proof.
  intros cl.
  apply (ParseFlags_error_iff_access_level_invalid
           ascii_strings.SetAllowedNamespaces ascii_strings.Split
           ascii_strings.TrimSpace cl (@config.NewConfig unit)).
  - intros ns sc. reflexivity.
  - exists security.NewSecurityConfig. reflexivity.
  - exists ∅. reflexivity.
Defined.

(** ** The namespace allow-list *)

Section namespace_scope.
Import security config.

Lemma CheckNamespace_empty policy ns : CheckNamespace policy ns ∅ = None.
Proof. unfold CheckNamespace. by rewrite decide_True. Qed.

Lemma CheckNamespaces_empty policy nss : CheckNamespaces policy nss ∅ = None.
Proof.
  induction nss as [| ns nss IH]; simpl; [done |].
  by rewrite CheckNamespace_empty.
Qed.

(** A named namespace outside a non-empty allow-list is rejected. *)
Lemma CheckNamespace_outside policy ns allowed :
  allowed ≠ ∅ → ns ∉ allowed →
  CheckNamespace policy (Some ns) allowed = Some NamespaceNotAllowed.
Proof.
  intros Hne Hout. unfold CheckNamespace.
  by rewrite decide_False, decide_False.
Qed.

(** [ParseFlags] does not get to the allow-list setter when the flag
    value is empty: whatever the setter is, the outcome is the same. *)
Lemma ParseFlags_setter_unused {T} setter1 setter2 Split TrimSpace
    cl (cfg : ConfigData T) :
  default "" (flag_allow_namespaces cl) = "" →
  ParseFlags setter1 Split TrimSpace cl cfg
  = ParseFlags setter2 Split TrimSpace cl cfg.
Proof.
  intros Hempty. unfold ParseFlags.
  destruct (tierOf (AccessLevel (bindFlags cl cfg))); [| done].
  destruct (storeAccessLevel a (bindFlags cl cfg)) as [cfg1 |] eqn:Hstore;
    [| done].
  cbn [mbind outcome_bind].
  assert (AllowNamespaces cfg1 = "") as ->; [| done].
  unfold storeAccessLevel in Hstore.
  destruct (SecurityConfig_ (bindFlags cl cfg)); simplify_eq.
  done.
Qed.

(** C5. Under an empty allow-list the Namespace Scope Guard rejects
    nothing: every namespace, named or not, passes, and so does every
    list of referenced namespaces. In the configuration layer, with an
    empty allow-namespaces flag value, [ParseFlags] never reaches
    [SetAllowedNamespaces] (its outcome is the same for every setter),
    and on a fresh configuration it leaves the security configuration
    with its empty allow-list, under which the guard permits every
    namespace. *)
Theorem empty_allow_list_never_rejects {T} Split TrimSpace
    (cl : CommandLine) :
  default "" (flag_allow_namespaces cl) = "" →
  (∀ policy ns, CheckNamespace policy ns ∅ = None)
  ∧ (∀ policy nss, CheckNamespaces policy nss ∅ = None)
  ∧ (∀ setter1 setter2 (cfg : ConfigData T),
       ParseFlags setter1 Split TrimSpace cl cfg
       = ParseFlags setter2 Split TrimSpace cl cfg)
  ∧ (∀ setter, ∃ cfg' e sc,
       ParseFlags setter Split TrimSpace cl (@NewConfig T)
         = Returned (cfg', e)
       ∧ SecurityConfig_ cfg' = Some sc
       ∧ allowedNamespaces sc = ∅
       ∧ ∀ policy ns,
           CheckNamespace policy ns (allowedNamespaces sc) = None).
Proof.
  intros Hempty. split_and!.
  - apply CheckNamespace_empty.
  - apply CheckNamespaces_empty.
  - intros. by apply ParseFlags_setter_unused.
  - intros setter.
    destruct (tierOf (default "readonly" (flag_access_level cl)))
      as [level |] eqn:Hlevel.
    + destruct (ParseFlags_valid setter Split TrimSpace cl (@NewConfig T)
                  level NewSecurityConfig Hlevel eq_refl)
        as (cfg' & Hrun & Hsec); [by eexists |].
      rewrite Hempty in Hsec. rewrite decide_False in Hsec by naive_solver.
      eexists cfg', None, _. split_and!; [done .. |].
      intros. apply CheckNamespace_empty.
    + eexists _, _, NewSecurityConfig.
      split_and!; [by apply ParseFlags_invalid | done | done |].
      intros. apply CheckNamespace_empty.
Qed.
End namespace_scope.

(** No allow-namespaces flag, access level "readwrite". *)
Lemma empty_allow_list_never_rejects_witness :
  let cl := {| config.flag_transport := None; config.flag_host := None;
               config.flag_port := None; config.flag_timeout := None;
               config.flag_additional_tools := None;
               config.flag_access_level := Some "readwrite";
               config.flag_allow_namespaces := None;
               config.flag_otlp_endpoint := None |} in
  default "" (config.flag_allow_namespaces cl) = ""
  ∧ ∀ setter, ∃ cfg' e sc,
      config.ParseFlags setter ascii_strings.Split ascii_strings.TrimSpace cl
        (@config.NewConfig unit) = Returned (cfg', e)
      ∧ config.SecurityConfig_ cfg' = Some sc
      ∧ security.allowedNamespaces sc = ∅
      ∧ ∀ policy ns,
          security.CheckNamespace policy ns (security.allowedNamespaces sc)
          = None.
Proof.
  intros cl. split; [reflexivity |].
  apply (empty_allow_list_never_rejects (T:=unit) ascii_strings.Split
           ascii_strings.TrimSpace cl).
  reflexivity.
Defined.

(** ** The tool handlers *)

Section tool_handlers.
Import telemetry config mcp tools.
Context {T : Type} `{!TelemetryInterface T}.
Implicit Types (executor : CommandExecutor (T:=T)) (cfg : ConfigData T).
Implicit Types (req : CallToolRequest) (m : gmap string any).

Lemma track_present cfg sink name operation success :
  TelemetryService cfg = Some sink →
  track cfg name operation success
  = (Some (TrackToolInvocation sink name operation success),
     [CallTrackToolInvocation name operation success]).
Proof. intros Hsink. unfold track. by rewrite Hsink. Qed.

Lemma track_absent cfg name operation success :
  TelemetryService cfg = None →
  track cfg name operation success = (None, []).
Proof. intros Hsink. unfold track. by rewrite Hsink. Qed.

(** The sink is left as the tracked calls make it. *)
Lemma track_feed cfg name operation success :
  (track cfg name operation success).1
  = (λ sink, feed sink (track cfg name operation success).2)
    <$> TelemetryService cfg.
Proof. unfold track. by destruct (TelemetryService cfg). Qed.

Lemma assertMap_not_map (x : any) :
  (∀ args : go_map, x ≠ AnyMap args) → assertMap x = (None, false).
Proof. intros Hno. destruct x as [| | | | | args |]; try done. by destruct (Hno args). Qed.

(** *** The runs of the two handlers, case by case *)

Lemma CreateToolHandler_rejects executor cfg req :
  (∀ args : go_map, Arguments (Params req) ≠ AnyMap args) →
  CreateToolHandler executor cfg req = Returned (rejection cfg req).
Proof.
  intros Hno. unfold CreateToolHandler, rejection.
  rewrite (assertMap_not_map _ Hno). cbn [negb].
  by destruct (track cfg (Name (Params req)) "" false).
Qed.

Lemma CreateToolHandler_executes executor cfg req (args : go_map) :
  Arguments (Params req) = AnyMap args →
  CreateToolHandler executor cfg req
  = Returned (execution executor cfg (Name (Params req)) args).
Proof.
  intros Hargs. unfold CreateToolHandler, execution. rewrite Hargs.
  cbn [assertMap negb].
  destruct (track cfg _ _ _). by destruct (err (executor args cfg)).
Qed.

Lemma CreateToolHandlerWithName_rejects executor cfg toolName req :
  (∀ args : go_map, Arguments (Params req) ≠ AnyMap args) →
  CreateToolHandlerWithName executor cfg toolName req
  = Returned (rejection cfg req).
Proof.
  intros Hno. unfold CreateToolHandlerWithName, rejection.
  rewrite (assertMap_not_map _ Hno). cbn [negb].
  by destruct (track cfg (Name (Params req)) "" false).
Qed.

Lemma CreateToolHandlerWithName_executes executor cfg toolName req m :
  Arguments (Params req) = AnyMap (Some m) →
  CreateToolHandlerWithName executor cfg toolName req
  = Returned (execution executor cfg toolName
                (Some (<["_tool_name" := AnyString toolName]> m))).
Proof.
  intros Hargs. unfold CreateToolHandlerWithName, execution. rewrite Hargs.
  cbn [assertMap negb mapAssign mbind outcome_bind].
  destruct (track cfg _ _ _).
  by destruct (err (executor (Some (<["_tool_name":=AnyString toolName]> m))
                      cfg)).
Qed.

Lemma CreateToolHandlerWithName_nil_map executor cfg toolName req :
  Arguments (Params req) = AnyMap None →
  CreateToolHandlerWithName executor cfg toolName req
  = Panicked "assignment to entry in nil map".
Proof.
  intros Hargs. unfold CreateToolHandlerWithName. by rewrite Hargs.
Qed.

(** The arguments of a request are a map or they are not. *)
Lemma arguments_cases req :
  (∀ args : go_map, Arguments (Params req) ≠ AnyMap args)
  ∨ ∃ args : go_map, Arguments (Params req) = AnyMap args.
Proof. destruct (Arguments (Params req)); eauto. Qed.

Lemma nil_map_or_not req :
  Arguments (Params req) = AnyMap None
  ∨ Arguments (Params req) ≠ AnyMap None.
Proof.
  destruct (Arguments (Params req)) as [| | | | | [m |] |];
    (by left) || (by right).
Qed.

(** [CreateToolHandler] returns on every request. *)
Lemma CreateToolHandler_returns executor cfg req :
  ∃ r, CreateToolHandler executor cfg req = Returned r
       ∧ returned_err r = None ∧ is_Some (result r).
Proof.
  destruct (arguments_cases req) as [Hno | [args Hargs]].
  - rewrite (CreateToolHandler_rejects _ _ _ Hno). by eexists.
  - rewrite (CreateToolHandler_executes _ _ _ _ Hargs). by eexists.
Qed.

(** [CreateToolHandlerWithName] returns on every request but one that
    carries a nil map. *)
Lemma CreateToolHandlerWithName_returns executor cfg toolName req :
  Arguments (Params req) ≠ AnyMap None →
  ∃ r, CreateToolHandlerWithName executor cfg toolName req = Returned r
       ∧ returned_err r = None ∧ is_Some (result r).
Proof.
  intros Hnot.
  destruct (arguments_cases req) as [Hno | [[m |] Hargs]]; [| | done].
  - rewrite (CreateToolHandlerWithName_rejects _ _ _ _ Hno). by eexists.
  - rewrite (CreateToolHandlerWithName_executes _ _ _ _ _ Hargs).
    by eexists.
Qed.

(** With a sink in place, each kind of run tracks once, and with the
    outcome of the executor. *)
Lemma rejection_tracks_once cfg sink req :
  TelemetryService cfg = Some sink →
  calls (rejection cfg req)
    = [CallTrackToolInvocation (Name (Params req)) "" false]
  ∧ telemetry_left (rejection cfg req)
    = Some (TrackToolInvocation sink (Name (Params req)) "" false).
Proof.
  intros Hsink. unfold rejection.
  by rewrite (track_present _ _ _ _ _ Hsink).
Qed.

Lemma execution_tracks_once executor cfg sink name (args : go_map) :
  TelemetryService cfg = Some sink →
  ∃ operation,
    calls (execution executor cfg name args)
    = [CallExecute args;
       CallTrackToolInvocation name operation
         (bool_decide (err (executor args cfg) = None))]
    ∧ telemetry_left (execution executor cfg name args)
      = Some (TrackToolInvocation sink name operation
                (bool_decide (err (executor args cfg) = None))).
Proof.
  intros Hsink. unfold execution.
  rewrite (track_present _ _ _ _ _ Hsink). by eexists.
Qed.

Lemma rejection_trackedOnce executor cfg sink req :
  TelemetryService cfg = Some sink →
  trackedOnce executor cfg sink (rejection cfg req).
Proof.
  intros Hsink.
  destruct (rejection_tracks_once cfg sink req Hsink) as [Hcalls Hleft].
  exists (Name (Params req)), "", false. rewrite Hcalls, Hleft.
  split_and!; [done | done |]. split; [done |].
  intros (args & Hin & _). by apply list_elem_of_singleton in Hin.
Qed.

Lemma execution_trackedOnce executor cfg sink name (args : go_map) :
  TelemetryService cfg = Some sink →
  trackedOnce executor cfg sink (execution executor cfg name args).
Proof.
  intros Hsink.
  destruct (execution_tracks_once executor cfg sink name args Hsink)
    as (operation & Hcalls & Hleft).
  exists name, operation, (bool_decide (err (executor args cfg) = None)).
  rewrite Hcalls, Hleft. split_and!; [done | done |].
  rewrite bool_decide_eq_true. split.
  - intros Hok. exists args. split; [by left | done].
  - intros (args' & Hin & Hok).
    apply elem_of_cons in Hin as [Heq | Hin]; [by simplify_eq |].
    by apply list_elem_of_singleton in Hin.
Qed.

(** [CreateToolHandler] tracks every request once. *)
Lemma CreateToolHandler_trackedOnce executor cfg sink req :
  TelemetryService cfg = Some sink →
  ∃ r, CreateToolHandler executor cfg req = Returned r
       ∧ trackedOnce executor cfg sink r.
Proof.
  intros Hsink. destruct (arguments_cases req) as [Hno | [args Hargs]].
  - rewrite (CreateToolHandler_rejects _ _ _ Hno).
    eexists. split; [done |]. by apply rejection_trackedOnce.
  - rewrite (CreateToolHandler_executes _ _ _ _ Hargs).
    eexists. split; [done |]. by apply execution_trackedOnce.
Qed.

(** [CreateToolHandlerWithName] tracks every request once, but for a
    request that carries a nil map. *)
Lemma CreateToolHandlerWithName_trackedOnce executor cfg sink toolName req :
  TelemetryService cfg = Some sink →
  Arguments (Params req) ≠ AnyMap None →
  ∃ r, CreateToolHandlerWithName executor cfg toolName req = Returned r
       ∧ trackedOnce executor cfg sink r.
Proof.
  intros Hsink Hnot.
  destruct (arguments_cases req) as [Hno | [[m |] Hargs]]; [| | done].
  - rewrite (CreateToolHandlerWithName_rejects _ _ _ _ Hno).
    eexists. split; [done |]. by apply rejection_trackedOnce.
  - rewrite (CreateToolHandlerWithName_executes _ _ _ _ _ Hargs).
    eexists. split; [done |]. by apply execution_trackedOnce.
Qed.

(** An error of the executor becomes an error result with its text, and
    its output becomes a text result. *)
Lemma execution_result executor cfg name (args : go_map) :
  result (execution executor cfg name args)
  = Some (match err (executor args cfg) with
          | Some msg => NewToolResultError msg
          | None => NewToolResultText (output (executor args cfg))
          end)
  ∧ returned_err (execution executor cfg name args) = None.
Proof. done. Qed.
End tool_handlers.

Section handler_contracts.
Import telemetry config mcp tools.
Context {T : Type} `{!TelemetryInterface T}.
Implicit Types (executor : CommandExecutor (T:=T)) (cfg : ConfigData T).
Implicit Types (req : CallToolRequest) (m : gmap string any).

(** C10. On a request whose arguments are not a
    [map[string]interface{}], both handlers return the same run whatever
    the executor is: an error result carrying the type error, a nil Go
    error, and no call to the executor; with a sink in place, its one
    call carries the request's name, the empty operation, and
    [success = false]. *)
Theorem non_map_arguments_are_rejected cfg toolName req :
  (∀ args : go_map, Arguments (Params req) ≠ AnyMap args) →
  ∃ r,
    (∀ executor,
       CreateToolHandler executor cfg req = Returned r
       ∧ CreateToolHandlerWithName executor cfg toolName req = Returned r)
    ∧ result r = Some (NewToolResultError
                  ("arguments must be a map[string]interface{}, got "
                   ++ typeName (Arguments (Params req))))
    ∧ IsError <$> result r = Some true
    ∧ returned_err r = None
    ∧ executions (calls r) = []
    ∧ (∀ sink, TelemetryService cfg = Some sink →
         calls r = [CallTrackToolInvocation (Name (Params req)) "" false]
         ∧ telemetry_left r
           = Some (TrackToolInvocation sink (Name (Params req)) "" false)).
Proof.
  intros Hno. exists (rejection cfg req). split_and!; try done.
  - intros executor. split.
    + by apply CreateToolHandler_rejects.
    + by apply CreateToolHandlerWithName_rejects.
  - unfold rejection, track. by destruct (TelemetryService cfg).
  - intros sink Hsink. by apply rejection_tracks_once.
Qed.

(** C9. On a request whose arguments are an allocated map, the handler
    made by [CreateToolHandlerWithName(executor, cfg, toolName)] calls
    the executor once, on the map extended with ["_tool_name"] bound to
    [toolName] (every other key as it was), and what it returns is what
    the executor answered on that map: its output as a text result or
    its error as an error result, with a nil Go error, and the map as
    the executor left it. With a sink in place, the one telemetry call
    carries [toolName], the operation found in the map afterwards, and
    whether the executor's error was nil; and the run is the same
    whatever the request's own [Name] is. *)
Theorem injected_tool_name_is_used executor cfg toolName req m :
  Arguments (Params req) = AnyMap (Some m) →
  ∃ r args,
    CreateToolHandlerWithName executor cfg toolName req = Returned r
    ∧ executions (calls r) = [CallExecute args]
    ∧ args = Some (<["_tool_name" := AnyString toolName]> m)
    ∧ mapIndex args "_tool_name" = AnyString toolName
    ∧ (∀ key, key ≠ "_tool_name" → mapIndex args key = mapIndex (Some m) key)
    ∧ (∀ sink, TelemetryService cfg = Some sink →
         ∃ operation success,
           tracked (calls r)
             = [CallTrackToolInvocation toolName operation success]
           ∧ telemetry_left r
             = Some (TrackToolInvocation sink toolName operation success))
    ∧ (∀ name,
         CreateToolHandlerWithName executor cfg toolName
           {| Params := {| Name := name;
                           Arguments := Arguments (Params req) |} |}
         = Returned r)
    ∧ result r
      = Some (match err (executor args cfg) with
              | Some msg => NewToolResultError msg
              | None => NewToolResultText (output (executor args cfg))
              end)
    ∧ returned_err r = None
    ∧ arguments_left r = AnyMap (args_left (executor args cfg))
    ∧ (∀ sink, TelemetryService cfg = Some sink →
         calls r
         = [CallExecute args;
            CallTrackToolInvocation toolName
              (assertString
                 (mapIndex (args_left (executor args cfg)) "operation")).1
              (bool_decide (err (executor args cfg) = None))]
         ∧ telemetry_left r
           = Some (TrackToolInvocation sink toolName
                     (assertString
                        (mapIndex (args_left (executor args cfg))
                           "operation")).1
                     (bool_decide (err (executor args cfg) = None))))
    ∧ (TelemetryService cfg = None →
       calls r = [CallExecute args] ∧ telemetry_left r = None).
Proof.
  intros Hargs.
  exists (execution executor cfg toolName
            (Some (<["_tool_name" := AnyString toolName]> m))),
         (Some (<["_tool_name" := AnyString toolName]> m)).
  split_and!.
  - by apply CreateToolHandlerWithName_executes.
  - unfold execution, track. by destruct (TelemetryService cfg).
  - done.
  - unfold mapIndex. by rewrite lookup_insert_eq.
  - intros key Hkey. unfold mapIndex. by rewrite lookup_insert_ne.
  - intros sink Hsink.
    destruct (execution_tracks_once executor cfg sink toolName
                (Some (<["_tool_name" := AnyString toolName]> m)) Hsink)
      as (operation & Hcalls & Hleft).
    exists operation. eexists. by rewrite Hcalls, Hleft.
  - intros name. by apply CreateToolHandlerWithName_executes.
  - done.
  - done.
  - done.
  - intros sink Hsink. unfold execution.
    by rewrite (track_present _ _ _ _ _ Hsink).
  - intros Hsink. unfold execution.
    by rewrite (track_absent _ _ _ _ Hsink).
Qed.

(** C6. The sink has no say in what the caller gets. For a request and
    an executor that answers the same with and without the sink in the
    configuration, each handler returns the same pair of values (or
    panics alike) with [TelemetryService] nil as with the sink in place.
    And [TrackToolInvocation] on a [Service] that is not initialized
    returns the service as it was, with nothing sent. *)
Theorem telemetry_never_changes_the_result executor cfg toolName req :
  (∀ args, executor args (setTelemetryService None cfg) = executor args cfg) →
  visible (CreateToolHandler executor (setTelemetryService None cfg) req)
    = visible (CreateToolHandler executor cfg req)
  ∧ visible (CreateToolHandlerWithName executor
               (setTelemetryService None cfg) toolName req)
    = visible (CreateToolHandlerWithName executor cfg toolName req)
  ∧ (∀ HasOTLP HasApplicationInsights (s : Service) name operation success,
       isInitialized s = false →
       Service_TrackToolInvocation HasOTLP HasApplicationInsights s
         name operation success = s)
  ∧ (∀ HasOTLP HasApplicationInsights c name operation success,
       Service_TrackToolInvocation HasOTLP HasApplicationInsights
         (NewService c) name operation success = NewService c
       ∧ sent (NewService c) = []).
Proof.
  intros Hfixed. split_and!.
  - destruct (arguments_cases req) as [Hno | [args Hargs]].
    + by rewrite !(CreateToolHandler_rejects _ _ _ Hno).
    + rewrite !(CreateToolHandler_executes _ _ _ _ Hargs).
      cbn. by rewrite Hfixed.
  - destruct (arguments_cases req) as [Hno | [[m |] Hargs]].
    + by rewrite !(CreateToolHandlerWithName_rejects _ _ _ _ Hno).
    + rewrite !(CreateToolHandlerWithName_executes _ _ _ _ _ Hargs).
      cbn. by rewrite Hfixed.
    + by rewrite !(CreateToolHandlerWithName_nil_map _ _ _ _ Hargs).
  - intros ?? s ??? Hinit. unfold Service_TrackToolInvocation.
    by rewrite Hinit.
  - done.
Qed.

(** C3. The write [args["_tool_name"] = toolName] is not safe on every
    value that passes the type assertion: a nil
    [map[string]interface{}] passes it, and the handler made by
    [CreateToolHandlerWithName] then panics. That request is the only
    one on which it panics, and [CreateToolHandler] returns on it. *)
Theorem CreateToolHandlerWithName_panics_on_nil_map
    executor cfg toolName name :
  assertMap (Arguments (Params (nilMapRequest name))) = (None, true)
  ∧ CreateToolHandlerWithName executor cfg toolName (nilMapRequest name)
    = Panicked "assignment to entry in nil map"
  ∧ (∀ req, panics (CreateToolHandlerWithName executor cfg toolName req)
            ↔ Arguments (Params req) = AnyMap None)
  ∧ (∀ req, returns (CreateToolHandler executor cfg req)).
Proof.
  split_and!; [done | done | |].
  - intros req. split.
    + intros Hpanic. destruct (nil_map_or_not req) as [Hnil | Hnot];
        [done |].
      destruct (CreateToolHandlerWithName_returns executor cfg toolName
                  req Hnot) as (r & Hr & _).
      by rewrite Hr in Hpanic.
    + intros Hnil.
      by rewrite (CreateToolHandlerWithName_nil_map _ _ _ _ Hnil).
  - intros req.
    destruct (CreateToolHandler_returns executor cfg req) as (r & -> & _).
    done.
Qed.

(** C1. With a sink in place, the handler made by
    [CreateToolHandlerWithName] does not track a request that carries a
    nil map: it panics at the write into the map, before the executor
    and the sink are reached, so there is no run in which the sink was
    called once. [CreateToolHandler] tracks the same request once. *)
Theorem nil_map_request_is_not_tracked executor cfg sink toolName name :
  let cfg := setTelemetryService (Some sink) cfg in
  (¬ ∃ r, CreateToolHandlerWithName executor cfg toolName
            (nilMapRequest name) = Returned r
          ∧ trackedOnce executor cfg sink r)
  ∧ (∃ r, CreateToolHandler executor cfg (nilMapRequest name) = Returned r
          ∧ trackedOnce executor cfg sink r).
Proof.
  intros cfg'. split.
  - intros (r & Hr & _).
    by rewrite (CreateToolHandlerWithName_nil_map executor cfg' toolName
                  (nilMapRequest name) eq_refl) in Hr.
  - by apply CreateToolHandler_trackedOnce.
Qed.

(** C2. The handler made by [CreateToolHandlerWithName] returns nothing
    on a request that carries a nil map: no result and no nil error,
    the panic goes to the caller. [CreateToolHandler] answers the same
    request with a nil error and the converted outcome of the
    executor. *)
Theorem nil_map_request_gets_no_result executor cfg toolName name :
  (¬ ∃ r, CreateToolHandlerWithName executor cfg toolName
            (nilMapRequest name) = Returned r
          ∧ returned_err r = None ∧ is_Some (result r))
  ∧ (∃ r, CreateToolHandler executor cfg (nilMapRequest name) = Returned r
          ∧ returned_err r = None
          ∧ result r
            = Some (match err (executor None cfg) with
                    | Some msg => NewToolResultError msg
                    | None => NewToolResultText (output (executor None cfg))
                    end)).
Proof.
  split.
  - intros (r & Hr & _).
    by rewrite (CreateToolHandlerWithName_nil_map executor cfg toolName
                  (nilMapRequest name) eq_refl) in Hr.
  - rewrite (CreateToolHandler_executes executor cfg (nilMapRequest name)
               None eq_refl).
    by eexists.
Qed.
End handler_contracts.

(** The request of the tests with a string for its arguments, under the
    mock sink. *)
Lemma non_map_arguments_are_rejected_witness :
  let cfg := config.setTelemetryService
               (Some {| tools.invocations := [] |}) config.NewConfig in
  let req := {| mcp.Params :=
                  {| mcp.Name := "test-tool";
                     mcp.Arguments := AnyString "invalid arguments" |} |} in
  ∃ r,
    (∀ executor,
       tools.CreateToolHandler executor cfg req = Returned r
       ∧ tools.CreateToolHandlerWithName executor cfg "named-tool" req
         = Returned r)
    ∧ tools.result r
      = Some (mcp.NewToolResultError
                "arguments must be a map[string]interface{}, got string")
    ∧ tools.calls r = [tools.CallTrackToolInvocation "test-tool" "" false]
    ∧ tools.telemetry_left r
      = Some {| tools.invocations :=
                  [{| tools.toolName := "test-tool"; tools.operation := "";
                      tools.success := false |}] |}.
Proof.
  intros cfg req.
  destruct (non_map_arguments_are_rejected cfg "named-tool" req)
    as (r & Hrun & Hresult & _ & _ & _ & Hsink); [by intros args |].
  destruct (Hsink {| tools.invocations := [] |} eq_refl) as [Hcalls Hleft].
  exists r. split_and!; [exact Hrun | exact Hresult | exact Hcalls |].
  rewrite Hleft. reflexivity.
Defined.

(** The request of the tests for the named handler, under the mock sink
    and the failing mock executor. *)
Lemma injected_tool_name_is_used_witness :
  let cfg := config.setTelemetryService
               (Some {| tools.invocations := [] |}) config.NewConfig in
  let m : gmap string any :=
    <["operation" := AnyString "patch"]> (<["arg1" := AnyString "value1"]> ∅) in
  let req := {| mcp.Params :=
                  {| mcp.Name := "request-tool-name";
                     mcp.Arguments := AnyMap (Some m) |} |} in
  let executor :=
    tools.mockExecutor_Execute
      {| tools.shouldError := true; tools.mock_result := "" |} in
  ∃ r,
    tools.CreateToolHandlerWithName executor cfg "named-tool" req = Returned r
    ∧ tools.executions (tools.calls r)
      = [tools.CallExecute (Some (<["_tool_name" := AnyString "named-tool"]> m))]
    ∧ tools.result r = Some (mcp.NewToolResultError "mock execution error")
    ∧ tools.calls r
      = [tools.CallExecute (Some (<["_tool_name" := AnyString "named-tool"]> m));
         tools.CallTrackToolInvocation "named-tool" "patch" false].
Proof.
  intros cfg m req executor.
  destruct (injected_tool_name_is_used executor cfg "named-tool" req m eq_refl)
    as (r & args & Hrun & Hexec & -> & _ & _ & _ & _ & Hresult & _ & _
        & Hsink & _).
  destruct (Hsink {| tools.invocations := [] |} eq_refl) as [Hcalls _].
  exists r. split_and!; [exact Hrun | exact Hexec | exact Hresult |
                         exact Hcalls].
Defined.

(** The successful request of the tests, with and without the mock sink. *)
Lemma telemetry_never_changes_the_result_witness :
  let cfg := config.setTelemetryService
               (Some {| tools.invocations := [] |}) config.NewConfig in
  let req := {| mcp.Params :=
                  {| mcp.Name := "test-tool";
                     mcp.Arguments :=
                       AnyMap (Some (<["arg1" := AnyString "value1"]> ∅)) |} |} in
  let executor :=
    tools.mockExecutor_Execute
      {| tools.shouldError := false; tools.mock_result := "success result" |} in
  (∀ args, executor args (config.setTelemetryService None cfg)
           = executor args cfg)
  ∧ tools.visible (tools.CreateToolHandler executor
                     (config.setTelemetryService None cfg) req)
    = tools.visible (tools.CreateToolHandler executor cfg req).
Proof.
  intros cfg req executor.
  assert (∀ args, executor args (config.setTelemetryService None cfg)
                  = executor args cfg) as Hfixed by (intros args; reflexivity).
  split; [exact Hfixed |].
  exact (proj1 (telemetry_never_changes_the_result executor cfg "named-tool"
                  req Hfixed)).
Defined.

(** ** The sink of the running service *)

(** Counts the records of one tracking call: at most one event and one
    span, whatever the configuration and the provider. *)
Ltac count_records :=
  unfold telemetry.ended; rewrite ?length_app;
  repeat match goal with
         | |- context [match telemetry.tracerProvider ?s with _ => _ end] =>
             destruct (telemetry.tracerProvider s) as [[| ?] |]
         | |- context [if ?b then _ else _] => destruct b
         end;
  simpl; lia.

Section service_sink.
Import telemetry config mcp tools.
Variables HasOTLP HasApplicationInsights : Config → bool.

#[local] Instance service_sink : TelemetryInterface Service :=
  Service_TelemetryInterface HasOTLP HasApplicationInsights.

Lemma TrackToolInvocation_uninitialized (s : Service) name operation success :
  isInitialized s = false →
  Service_TrackToolInvocation HasOTLP HasApplicationInsights s
    name operation success = s.
Proof. intros Hinit. unfold Service_TrackToolInvocation. by rewrite Hinit. Qed.

(** An initialized service sends what its configuration asks for. *)
Lemma TrackToolInvocation_initialized (s : Service) name operation success :
  isInitialized s = true →
  ∃ es, sent (Service_TrackToolInvocation HasOTLP HasApplicationInsights s
                name operation success) = (sent s ++ es)%list
        ∧ (length es ≤ 2)%nat.
Proof.
  intros Hinit. unfold Service_TrackToolInvocation. rewrite Hinit.
  cbn [negb send sent]. eexists. split; [done |].
  count_records.
Qed.

(** [Initialize] fails only when the resource cannot be created, and then
    the service is as it was. *)
Lemma Initialize_failure env (s s' : Service) e :
  Initialize HasOTLP HasApplicationInsights env s = (s', Some e) →
  s' = s ∧ HasOTLP (config s) = true ∧ is_Some (resourceNew env).
Proof.
  unfold Initialize, initializeTracing.
  destruct (HasOTLP (config s)); cbn [negb]; [| by intros].
  destruct (resourceNew env); intros; simplify_eq. by eauto.
Qed.

Lemma Initialize_success env (s s' : Service) :
  Initialize HasOTLP HasApplicationInsights env s = (s', None) →
  isInitialized s' = true.
Proof.
  unfold Initialize.
  destruct (initializeTracing HasOTLP env s) as [s1 [e |]]; intros;
    by simplify_eq.
Qed.

(** When set-up fails, [InitializeTelemetry] leaves an uninitialized
    service in the configuration, and a handler that tracks into it
    leaves it as it is. *)
Lemma failed_setup_is_silent NewConfig env serviceName serviceVersion
    (cfg : ConfigData Service) executor req :
  let cfg' := InitializeTelemetry HasOTLP HasApplicationInsights NewConfig
                env serviceName serviceVersion cfg in
  (∀ svc, TelemetryService cfg' = Some svc → isInitialized svc = false) →
  ∃ r, CreateToolHandler executor cfg' req = Returned r
       ∧ telemetry_left r = TelemetryService cfg'
       ∧ is_Some (telemetry_left r).
Proof.
  intros cfg' Hfailed.
  destruct (TelemetryService cfg') as [svc |] eqn:Hsvc; [| done].
  destruct (arguments_cases req) as [Hno | [args Hargs]].
  - rewrite (CreateToolHandler_rejects _ _ _ Hno). eexists. split; [done |].
    unfold rejection. rewrite (track_present _ _ _ _ _ Hsvc). cbn.
    rewrite TrackToolInvocation_uninitialized by auto. by eauto.
  - rewrite (CreateToolHandler_executes _ _ _ _ Hargs). eexists.
    split; [done |].
    unfold execution. rewrite (track_present _ _ _ _ _ Hsvc). cbn.
    rewrite TrackToolInvocation_uninitialized by auto. by eauto.
Qed.
End service_sink.

(** ** The tests of the packages, replayed on the model *)

Section replayed_tests.
Import security telemetry config mcp tools.

Import testdata.

Example TestCreateToolHandlerSuccess :
  seen (CreateToolHandler succeeding cfgMock (request "test-tool" "get"))
  = Returned (Some (NewToolResultText "success result"), None,
              Some {| invocations :=
                        [{| toolName := "test-tool"; operation := "get";
                            success := true |}] |}).
Proof. vm_compute. reflexivity. Qed.

Example TestCreateToolHandlerError :
  seen (CreateToolHandler failing cfgMock (request "test-tool" "delete"))
  = Returned (Some (NewToolResultError "mock execution error"), None,
              Some {| invocations :=
                        [{| toolName := "test-tool"; operation := "delete";
                            success := false |}] |}).
Proof. vm_compute. reflexivity. Qed.

Example TestCreateToolHandlerWithoutTelemetry :
  seen (CreateToolHandler succeeding (setTelemetryService None cfgMock)
          {| Params := {| Name := "test-tool";
                          Arguments := AnyMap (Some (<["arg1" := AnyString "value1"]> ∅)) |} |})
  = Returned (Some (NewToolResultText "success result"), None, None).
Proof. vm_compute. reflexivity. Qed.

Example TestCreateToolHandlerInvalidArguments :
  seen (CreateToolHandler succeeding cfgMock
          {| Params := {| Name := "test-tool";
                          Arguments := AnyString "invalid arguments" |} |})
  = Returned (Some (NewToolResultError
                "arguments must be a map[string]interface{}, got string"),
              None,
              Some {| invocations :=
                        [{| toolName := "test-tool"; operation := "";
                            success := false |}] |}).
Proof. vm_compute. reflexivity. Qed.

Example TestCreateToolHandlerWithNameSuccess :
  seen (CreateToolHandlerWithName succeeding cfgMock "named-tool"
          (request "request-tool-name" "apply"))
  = Returned (Some (NewToolResultText "success result"), None,
              Some {| invocations :=
                        [{| toolName := "named-tool"; operation := "apply";
                            success := true |}] |}).
Proof. vm_compute. reflexivity. Qed.

Example TestCreateToolHandlerWithNameError :
  seen (CreateToolHandlerWithName failing cfgMock "named-tool"
          (request "request-tool-name" "patch"))
  = Returned (Some (NewToolResultError "mock execution error"), None,
              Some {| invocations :=
                        [{| toolName := "named-tool"; operation := "patch";
                            success := false |}] |}).
Proof. vm_compute. reflexivity. Qed.

Example TestAccessLevelValidation :
  tierOf <$> ["readonly"; "readwrite"; "admin"; "invalid"; ""; "READONLY";
              "ReadOnly"]
  = [Some AccessLevelReadOnly; Some AccessLevelReadWrite;
     Some AccessLevelAdmin; None; None; None; None].
Proof. vm_compute. reflexivity. Qed.

Example additional_tools_are_enabled :
  ∃ cfg' tools,
    ParseFlags (T:=unit) ascii_strings.SetAllowedNamespaces ascii_strings.Split
      ascii_strings.TrimSpace
      {| flag_transport := None; flag_host := None; flag_port := None;
         flag_timeout := None;
         flag_additional_tools := Some "helm, ,cilium ";
         flag_access_level := None; flag_allow_namespaces := None;
         flag_otlp_endpoint := None |} NewConfig
    = Returned (cfg', None)
    ∧ AdditionalTools cfg' = Some tools
    ∧ map_to_list tools ≡ₚ [("helm", true); ("cilium", true)].
Proof.
  eexists _, _. split_and!; [reflexivity | reflexivity |].
  vm_compute. by apply Permutation_refl || apply perm_swap.
Qed.
End replayed_tests.

(** * Further properties of the code *)

(** ** The life cycle of the telemetry service *)

Section service_life_cycle.
Import telemetry.
Variables HasOTLP HasApplicationInsights : Config → bool.

Abbreviation Initialize' := (Initialize HasOTLP HasApplicationInsights).
Abbreviation Track' := (Service_TrackToolInvocation HasOTLP HasApplicationInsights).
Abbreviation Startup' := (Service_TrackServiceStartup HasOTLP HasApplicationInsights).
Abbreviation Shutdown' := (Shutdown HasApplicationInsights).

Lemma initializeTracing_cases env (s : Service) :
  (HasOTLP (config s) = true ∧ is_Some (resourceNew env)
   ∧ ∃ e, initializeTracing HasOTLP env s = (s, Some e))
  ∨ (HasOTLP (config s) = true ∧ resourceNew env = None
     ∧ ∃ n, initializeTracing HasOTLP env s
            = ({| config := config s; tracer := Some (ServiceName (config s));
                  tracerProvider := Some n;
                  appInsightsClient := appInsightsClient s;
                  isInitialized := isInitialized s; sent := sent s |}, None))
  ∨ (HasOTLP (config s) = false ∧ initializeTracing HasOTLP env s = (s, None)).
Proof.
  unfold initializeTracing. destruct (HasOTLP (config s)); cbn [negb].
  - destruct (resourceNew env) as [e |].
    + left. split_and!; [done | by eexists | by eexists].
    + right; left. split_and!; [done | done | by eexists].
  - by right; right.
Qed.

(** X1. [Initialize] returns an error exactly when an OTLP endpoint is
    configured and the resource cannot be created; the service is then
    left as it was. A failure to create the exporter is not an error. In
    every other case the service is marked initialized, with its
    configuration and what it has sent unchanged. *)
Theorem Initialize_fails_only_without_resource env (s : Service) :
  (is_Some (Initialize' env s).2
   ↔ HasOTLP (config s) = true ∧ is_Some (resourceNew env))
  ∧ (is_Some (Initialize' env s).2 → (Initialize' env s).1 = s)
  ∧ ((Initialize' env s).2 = None →
     isInitialized (Initialize' env s).1 = true
     ∧ config (Initialize' env s).1 = config s
     ∧ sent (Initialize' env s).1 = sent s).
Proof.
  unfold Initialize.
  destruct (initializeTracing_cases env s)
    as [(Hotlp & Hres & e & ->) | [(Hotlp & Hres & n & ->) | (Hotlp & ->)]];
    cbn [fst snd].
  - refine (conj _ (conj _ _)); [| done | done].
    split; [done | by eexists].
  - rewrite Hres. refine (conj _ (conj _ _)).
    + split; [by intros [? ?] | by intros [_ [? ?]]].
    + by intros [? ?].
    + intros _. cbn [config isInitialized sent].
      destruct (HasApplicationInsights (config s)); [| done].
      unfold initializeApplicationInsights. cbn [config].
      by destruct (Enabled (config s)).
  - rewrite Hotlp. refine (conj _ (conj _ _)).
    + split; [by intros [? ?] | by intros [? _]].
    + by intros [? ?].
    + intros _. cbn [config isInitialized sent].
      destruct (HasApplicationInsights (config s)); [| done].
      unfold initializeApplicationInsights.
      by destruct (Enabled (config s)).
Qed.

(** X2. On a service that was created and initialized, the resource
    being available, [TrackToolInvocation] hands on, in this order: one
    trace event with the three tool properties, exactly when Application
    Insights is configured and telemetry is enabled; then one span with
    the three tool attributes, exactly when an OTLP endpoint is
    configured and the exporter could be created. A span that is started
    under a provider without exporter reaches nothing, and with neither
    destination nothing is handed on. *)
Theorem fresh_service_sends_what_is_configured
    (c : Config) (exporter : error) name operation success :
  sent (Track' (Initialize' {| resourceNew := None; exporterNew := exporter |}
                  (NewService c)).1 name operation success)
  = ((if HasApplicationInsights c && Enabled c
      then [TraceTelemetry "ToolInvocation"
              [("tool.name", name); ("tool.operation", operation);
               ("tool.success", if success then "true" else "false")]]
      else [])
     ++ (if HasOTLP c && bool_decide (exporter = None)
         then [Span "ToolInvocation"
                 [attrString "tool.name" name;
                  attrString "tool.operation" operation;
                  attrBool "tool.success" success]]
         else []))%list.
Proof.
  unfold Initialize, initializeTracing, NewService.
  cbn [config resourceNew exporterNew].
  destruct (HasOTLP c) eqn:Hotlp; cbn [negb fst config];
    destruct (HasApplicationInsights c) eqn:Hai; cbn [andb];
    unfold initializeApplicationInsights; cbn [config];
    destruct (Enabled c) eqn:Hen; cbn [negb];
    unfold Service_TrackToolInvocation, ended;
    cbn [isInitialized negb config tracer tracerProvider appInsightsClient
         send sent];
    rewrite ?Hotlp, ?Hai; destruct exporter as [e |]; cbn;
    by destruct success.
Qed.

(** X3. [Shutdown] returns an error exactly when the service is
    initialized, has a tracer provider, and the provider fails to shut
    down; the service then stays as it was, still initialized. In every
    other case the service is left uninitialized: tracking on it sends
    nothing and changes nothing, [StartActivity] hands back the span of
    the context, and a further [Shutdown] neither closes the channel nor
    asks the provider again. *)
Theorem Shutdown_silences_the_service
    (providerShutdown again : error) (s : Service) name operation success :
  let d := Shutdown' providerShutdown s in
  (is_Some (shutdown_err d)
   ↔ isInitialized s = true ∧ is_Some (tracerProvider s)
     ∧ is_Some providerShutdown)
  ∧ (is_Some (shutdown_err d) → service_left d = s)
  ∧ (shutdown_err d = None →
     isInitialized (service_left d) = false
     ∧ sent (service_left d) = sent s
     ∧ Track' (service_left d) name operation success = service_left d
     ∧ Startup' (service_left d) = service_left d
     ∧ StartActivity (service_left d) name = SpanFromContext
     ∧ Shutdown' again (service_left d)
       = {| service_left := service_left d; channelClosed := false;
            providerAsked := false; shutdown_err := None |}).
Proof.
  intros d. subst d. unfold Shutdown.
  destruct (isInitialized s) eqn:Hinit; cbn [negb].
  - destruct (tracerProvider s) as [n |] eqn:Hprov,
      providerShutdown as [e |]; cbn [shutdown_err service_left].
    + refine (conj _ (conj _ _)); [| done | done].
      split; [intros _ | by eexists]. split_and!; by eexists.
    + refine (conj _ (conj _ _)); [| by intros [? ?] |].
      * split; [by intros [? ?] | by intros (_ & _ & [? ?])].
      * intros _. unfold Service_TrackToolInvocation,
          Service_TrackServiceStartup, StartActivity. by cbn.
    + refine (conj _ (conj _ _)); [| by intros [? ?] |].
      * split; [by intros [? ?] | by intros (_ & [? ?] & _)].
      * intros _. unfold Service_TrackToolInvocation,
          Service_TrackServiceStartup, StartActivity. by cbn.
    + refine (conj _ (conj _ _)); [| by intros [? ?] |].
      * split; [by intros [? ?] | by intros (_ & [? ?] & _)].
      * intros _. unfold Service_TrackToolInvocation,
          Service_TrackServiceStartup, StartActivity. by cbn.
  - cbn [shutdown_err service_left].
    refine (conj _ (conj _ _)); [| by intros [? ?] |].
    + split; [by intros [? ?] | by intros (? & _)].
    + intros _. unfold Service_TrackToolInvocation,
        Service_TrackServiceStartup, StartActivity. by rewrite Hinit.
Qed.

(** X4. On a service fresh from [NewService], [StartActivity] hands back
    the span of the context. After [Initialize] it starts a span, under
    the service's name, exactly when an OTLP endpoint is configured and
    the resource could be created. *)
Theorem StartActivity_needs_a_tracer (c : Config) env activityName :
  StartActivity (NewService c) activityName = SpanFromContext
  ∧ StartActivity (Initialize' env (NewService c)).1 activityName
    = if HasOTLP c && bool_decide (resourceNew env = None)
      then Started (ServiceName c) activityName
      else SpanFromContext.
Proof.
  split; [done |].
  unfold Initialize, initializeTracing, NewService. cbn [config].
  destruct (HasOTLP c); cbn [negb andb].
  - destruct (resourceNew env) as [e |]; cbn [fst]; [done |].
    rewrite bool_decide_eq_true_2 by done. cbn [config].
    destruct (HasApplicationInsights c); [| done].
    unfold initializeApplicationInsights. cbn [config].
    by destruct (Enabled c).
  - cbn [fst config]. destruct (HasApplicationInsights c); [| done].
    unfold initializeApplicationInsights. cbn [config].
    by destruct (Enabled c).
Qed.

(** X5. Tracking never rewrites a service: [TrackToolInvocation] and
    [TrackServiceStartup] leave the configuration, the tracer, the
    provider, the client and the initialized flag as they are, keep
    every record sent before in place, and add at most two. *)
Theorem tracking_only_appends (s : Service) name operation success :
  extends s (Track' s name operation success) ∧ extends s (Startup' s).
Proof.
  unfold extends, Service_TrackToolInvocation, Service_TrackServiceStartup.
  destruct (isInitialized s) eqn:Hinit; cbn [negb].
  - cbn [send config tracer tracerProvider appInsightsClient isInitialized
         sent].
    split; (split_and!; try done; eexists; split; [done |]);
      count_records.
  - split; (split_and!; try done; exists []; split;
            [by rewrite app_nil_r | simpl; lia]).
Qed.
End service_life_cycle.

(** ** What [ParseFlags] does to a configuration *)

Section flag_effects.
Import security config.
Context {T : Type}.
Variable SetAllowedNamespaces : string → SecurityConfig → SecurityConfig.
Variable Split : string → string → list string.
Variable TrimSpace : string → string.

Abbreviation Parse :=
  (config.ParseFlags (T:=T) SetAllowedNamespaces Split TrimSpace).
Abbreviation names := (toolNames TrimSpace).

(** The map after [tool := true] was stored for every name. *)
Lemma enabled_lookup (stored : list string) (m : gmap string bool) key :
  foldl (λ m tool, <[tool := true]> m) m stored !! key
  = if decide (key ∈ stored) then Some true else m !! key.
Proof.
  revert m. induction stored as [| tool rest IH]; intros m; cbn [foldl].
  - destruct (decide (key ∈ [])) as [Hin | _]; [| done].
    by apply not_elem_of_nil in Hin.
  - rewrite IH.
    destruct (decide (key ∈ rest)) as [Hin | Hout],
             (decide (key ∈ tool :: rest)) as [Hin' | Hout']; try done.
    + destruct Hout'. by right.
    + apply elem_of_cons in Hin' as [-> | ?]; [| done].
      by rewrite lookup_insert_eq.
    + rewrite lookup_insert_ne; [done |].
      intros ->. destruct Hout'. by left.
Qed.

Lemma setAdditionalTools_same (cfg : ConfigData T) m :
  AdditionalTools cfg = Some m → setAdditionalTools m cfg = cfg.
Proof. destruct cfg; simpl; by intros ->. Qed.

Lemma toolNames_cons tool rest :
  names (tool :: rest)
  = if decide (TrimSpace tool = "") then names rest
    else TrimSpace tool :: names rest.
Proof.
  unfold toolNames. cbn [fmap list_fmap]. rewrite filter_cons.
  destruct (decide (TrimSpace tool = "")) as [Heq | Hne].
  - by rewrite decide_False by (by intros ?).
  - by rewrite decide_True.
Qed.

(** On an allocated map the loop stores every name and runs to its end. *)
Lemma enableTools_allocated tools (cfg : ConfigData T) m :
  AdditionalTools cfg = Some m →
  enableTools TrimSpace tools cfg
  = Returned (setAdditionalTools
                (foldl (λ m tool, <[tool := true]> m) m (names tools)) cfg).
Proof.
  revert cfg m. induction tools as [| tool rest IH]; intros cfg m Hm.
  - simpl. by rewrite setAdditionalTools_same.
  - rewrite toolNames_cons. cbn [enableTools].
    destruct (decide (TrimSpace tool = "")); [by apply IH |].
    rewrite Hm. by rewrite (IH _ (<[TrimSpace tool := true]> m)).
Qed.

(** On a nil map the loop panics at the first name, if there is one. *)
Lemma enableTools_nil_map tools (cfg : ConfigData T) :
  AdditionalTools cfg = None →
  enableTools TrimSpace tools cfg
  = if decide (names tools = []) then Returned cfg
    else Panicked "assignment to entry in nil map".
Proof.
  intros Hnil. induction tools as [| tool rest IH]; [done |].
  rewrite toolNames_cons. cbn [enableTools].
  destruct (decide (TrimSpace tool = "")); [done |].
  rewrite Hnil. by rewrite decide_False.
Qed.

(** X6. [ParseFlags] panics exactly when the access level is one of the
    three names and either the security configuration is nil, or the
    tools map is nil while the additional-tools value holds a non-blank
    entry. With an invalid access level it never panics. *)
Theorem ParseFlags_panics_iff (cl : CommandLine) (cfg : ConfigData T) :
  panics (Parse cl cfg)
  ↔ is_Some (tierOf (default "readonly" (flag_access_level cl)))
    ∧ (SecurityConfig_ cfg = None
       ∨ (AdditionalTools cfg = None
          ∧ default "" (flag_additional_tools cl) ≠ ""
          ∧ names (Split (default "" (flag_additional_tools cl)) ",") ≠ [])).
Proof.
  destruct (tierOf (default "readonly" (flag_access_level cl)))
    as [level |] eqn:Hlevel.
  2:{ rewrite (ParseFlags_invalid _ _ _ _ _ Hlevel).
      split; [done | by intros [[? ?] _]]. }
  destruct (SecurityConfig_ cfg) as [sc |] eqn:Hsc.
  2:{ unfold config.ParseFlags. cbn [AccessLevel bindFlags].
      rewrite Hlevel. unfold storeAccessLevel. cbn [SecurityConfig_ bindFlags].
      rewrite Hsc. split; [intros _ | done]. split; [by eexists | by left]. }
  destruct (AdditionalTools cfg) as [m |] eqn:Hm.
  { destruct (ParseFlags_valid SetAllowedNamespaces Split TrimSpace cl cfg
                level sc Hlevel Hsc) as (cfg' & -> & _); [by eexists |].
    split; [done |]. by intros [_ [? | [? _]]]. }
  unfold config.ParseFlags, storeAccessLevel, callSetAllowedNamespaces.
  cbn [AccessLevel bindFlags]. rewrite Hlevel.
  cbn [SecurityConfig_ bindFlags]. rewrite Hsc.
  cbn [mbind outcome_bind AllowNamespaces SecurityConfig_ setSecurityConfig
       bindFlags].
  destruct (decide (default "" (flag_allow_namespaces cl) ≠ ""));
    cbn [mbind outcome_bind];
    (destruct (decide (default "" (flag_additional_tools cl) ≠ ""))
       as [Htools | Htools];
     [rewrite enableTools_nil_map by done;
      destruct (decide (names (Split (default ""
                  (flag_additional_tools cl)) ",") = [])) as [Hnone | Hsome];
      cbn [mbind outcome_bind]
     | cbn [mbind outcome_bind] ]).
  all: split; [try done | try (by intros [_ [? | (_ & ? & ?)]])].
  all: intros _; split; [by eexists | right; by split_and!].
Qed.

(** X7. When [ParseFlags] returns an error, it has stopped before the
    allow-list and the additional tools: the configuration it leaves
    differs from the one it was called on in the flag-bound fields only,
    and the error text quotes the rejected access level. *)
Theorem ParseFlags_error_stops_early
    (cl : CommandLine) (cfg cfg' : ConfigData T) (e : string) :
  Parse cl cfg = Returned (cfg', Some e) →
  cfg' = bindFlags cl cfg
  ∧ SecurityConfig_ cfg' = SecurityConfig_ cfg
  ∧ AdditionalTools cfg' = AdditionalTools cfg
  ∧ TelemetryService cfg' = TelemetryService cfg
  ∧ e = "invalid access level '" ++ AccessLevel cfg'
        ++ "'. Valid values are: readonly, readwrite, admin".
Proof.
  intros Hrun.
  destruct (tierOf (default "readonly" (flag_access_level cl)))
    as [level |] eqn:Hlevel.
  - exfalso. revert Hrun.
    unfold config.ParseFlags. cbn [AccessLevel bindFlags]. rewrite Hlevel.
    destruct (storeAccessLevel level (bindFlags cl cfg)) as [cfg1 |];
      cbn [mbind outcome_bind]; [| done].
    destruct (if decide (AllowNamespaces cfg1 ≠ "")
              then callSetAllowedNamespaces SetAllowedNamespaces
                     (AllowNamespaces cfg1) cfg1
              else Returned cfg1) as [cfg2 |];
      cbn [mbind outcome_bind]; [| done].
    destruct (if decide (default "" (flag_additional_tools cl) ≠ "")
              then enableTools TrimSpace
                     (Split (default "" (flag_additional_tools cl)) ",") cfg2
              else Returned cfg2) as [cfg3 |];
      cbn [mbind outcome_bind]; [| done].
    by intros ?.
  - rewrite (ParseFlags_invalid _ _ _ _ _ Hlevel) in Hrun.
    by simplify_eq.
Qed.

(** The run of [ParseFlags] on a valid access level and a configuration
    with its security configuration and tools map allocated. *)
Lemma ParseFlags_run cl (cfg : ConfigData T) level sc m :
  tierOf (default "readonly" (flag_access_level cl)) = Some level →
  SecurityConfig_ cfg = Some sc →
  AdditionalTools cfg = Some m →
  Parse cl cfg
  = Returned
      (setAdditionalTools
         (if decide (default "" (flag_additional_tools cl) ≠ "")
          then foldl (λ m tool, <[tool := true]> m) m
                 (names (Split (default "" (flag_additional_tools cl)) ","))
          else m)
         (setSecurityConfig
            (let sc1 := {| AccessLevel_ := level;
                           allowedNamespaces := allowedNamespaces sc |} in
             if decide (default "" (flag_allow_namespaces cl) ≠ "")
             then SetAllowedNamespaces
                    (default "" (flag_allow_namespaces cl)) sc1
             else sc1)
            (bindFlags cl cfg)),
       None).
Proof.
  intros Hlevel Hsc Hm.
  unfold config.ParseFlags, storeAccessLevel, callSetAllowedNamespaces.
  cbn [AccessLevel bindFlags]. rewrite Hlevel.
  cbn [SecurityConfig_ bindFlags]. rewrite Hsc.
  cbn [mbind outcome_bind AllowNamespaces SecurityConfig_ setSecurityConfig
       bindFlags].
  destruct (decide (default "" (flag_allow_namespaces cl) ≠ ""));
    cbn [mbind outcome_bind];
    destruct (decide (default "" (flag_additional_tools cl) ≠ ""));
    cbn [mbind outcome_bind];
    rewrite ?(enableTools_allocated _ _ m) by done;
    cbn [mbind outcome_bind]; try done.
  all: by rewrite (setAdditionalTools_same _ m).
Qed.

(** X8. On a valid access level, and a configuration with its security
    configuration and tools map allocated, [ParseFlags] returns no error
    and leaves: in every flag-bound field the value of the command line
    or the flag's default, whatever the field held before; in the tools
    map [true] under every non-blank trimmed entry of the additional-tools
    value, and under every other key what was there; the telemetry
    service untouched; and in the security configuration the tier of the
    access level, with the allow-list it had, or, for a non-empty
    allow-namespaces value, what [SetAllowedNamespaces] makes of that
    value, unsplit and untrimmed, once the tier is stored. *)
Theorem ParseFlags_success_effects cl (cfg : ConfigData T) level sc m :
  tierOf (default "readonly" (flag_access_level cl)) = Some level →
  SecurityConfig_ cfg = Some sc →
  AdditionalTools cfg = Some m →
  ∃ cfg' m',
    Parse cl cfg = Returned (cfg', None)
    ∧ AdditionalTools cfg' = Some m'
    ∧ (∀ tool,
         m' !! tool
         = if decide (default "" (flag_additional_tools cl) ≠ ""
                      ∧ tool ∈ names (Split (default ""
                                  (flag_additional_tools cl)) ","))
           then Some true else m !! tool)
    ∧ Transport cfg' = default "stdio" (flag_transport cl)
    ∧ Host cfg' = default "127.0.0.1" (flag_host cl)
    ∧ Port cfg' = default 8000%Z (flag_port cl)
    ∧ Timeout cfg' = default 60%Z (flag_timeout cl)
    ∧ AccessLevel cfg' = default "readonly" (flag_access_level cl)
    ∧ AllowNamespaces cfg' = default "" (flag_allow_namespaces cl)
    ∧ OTLPEndpoint cfg' = default "" (flag_otlp_endpoint cl)
    ∧ TelemetryService cfg' = TelemetryService cfg
    ∧ SecurityConfig_ cfg'
      = Some (let stored := {| AccessLevel_ := level;
                               allowedNamespaces := allowedNamespaces sc |} in
              if decide (default "" (flag_allow_namespaces cl) ≠ "")
              then SetAllowedNamespaces
                     (default "" (flag_allow_namespaces cl)) stored
              else stored).
Proof.
  intros Hlevel Hsc Hm. eexists _, _.
  split; [by apply (ParseFlags_run cl cfg level sc m) |].
  split; [done |]. split; [| done].
  intros tool.
  destruct (decide (default "" (flag_additional_tools cl) ≠ "")) as [Hne | He].
  - rewrite enabled_lookup.
    destruct (decide (tool ∈ _)) as [Hin | Hout].
    + by rewrite decide_True.
    + rewrite decide_False; [done | by intros [_ ?]].
  - rewrite decide_False; [done | by intros [? _]].
Qed.
End flag_effects.

(** A nil security configuration, as in a zero-valued [ConfigData]. *)
Lemma ParseFlags_error_stops_early_witness :
  let cl := {| config.flag_transport := Some "sse"; config.flag_host := None;
               config.flag_port := None; config.flag_timeout := None;
               config.flag_additional_tools := Some "helm";
               config.flag_access_level := Some "ReadOnly";
               config.flag_allow_namespaces := Some "dev";
               config.flag_otlp_endpoint := None |} in
  let cfg : config.ConfigData unit :=
    config.setAdditionalTools ∅ config.NewConfig in
  config.ParseFlags ascii_strings.SetAllowedNamespaces ascii_strings.Split
    ascii_strings.TrimSpace cl cfg
  = Returned (config.bindFlags cl cfg,
              Some "invalid access level 'ReadOnly'. Valid values are: readonly, readwrite, admin")
  ∧ config.SecurityConfig_ (config.bindFlags cl cfg)
    = config.SecurityConfig_ cfg
  ∧ config.AdditionalTools (config.bindFlags cl cfg)
    = config.AdditionalTools cfg.
Proof.
  intros cl cfg.
  assert (config.ParseFlags ascii_strings.SetAllowedNamespaces
            ascii_strings.Split ascii_strings.TrimSpace cl cfg
          = Returned (config.bindFlags cl cfg,
              Some "invalid access level 'ReadOnly'. Valid values are: readonly, readwrite, admin"))
    as Hrun by reflexivity.
  split; [exact Hrun |].
  destruct (ParseFlags_error_stops_early ascii_strings.SetAllowedNamespaces
              ascii_strings.Split ascii_strings.TrimSpace cl cfg _ _ Hrun)
    as (_ & Hsec & Htools & _).
  split; [exact Hsec | exact Htools].
Defined.

(** Two tools and a blank entry on a fresh configuration. *)
Lemma ParseFlags_success_effects_witness :
  let cl := {| config.flag_transport := None; config.flag_host := None;
               config.flag_port := Some 9000%Z; config.flag_timeout := None;
               config.flag_additional_tools := Some "helm, ,cilium ";
               config.flag_access_level := Some "readwrite";
               config.flag_allow_namespaces := None;
               config.flag_otlp_endpoint := None |} in
  ∃ cfg' m',
    config.ParseFlags ascii_strings.SetAllowedNamespaces ascii_strings.Split
      ascii_strings.TrimSpace cl (@config.NewConfig unit)
    = Returned (cfg', None)
    ∧ config.AdditionalTools cfg' = Some m'
    ∧ m' !! "helm" = Some true
    ∧ m' !! "cilium" = Some true
    ∧ m' !! "hubble" = None
    ∧ config.Port cfg' = 9000%Z.
Proof.
  intros cl.
  destruct (ParseFlags_success_effects ascii_strings.SetAllowedNamespaces
              ascii_strings.Split ascii_strings.TrimSpace cl
              (@config.NewConfig unit) security.AccessLevelReadWrite
              security.NewSecurityConfig ∅ eq_refl eq_refl eq_refl)
    as (cfg' & m' & Hrun & Hm & Hlookup & _ & _ & Hport & _).
  exists cfg', m'.
  split; [exact Hrun |]. split; [exact Hm |].
  rewrite !Hlookup. split_and!; [reflexivity .. | exact Hport].
Defined.

(** ** Setting up telemetry from the configuration *)

Section telemetry_from_configuration.
Import telemetry config.
Variables HasOTLP HasApplicationInsights : telemetry.Config → bool.
Variable NewTelemetryConfig : string → string → telemetry.Config.

(** The start-up records of a service configured by [c]: the trace
    event first, the span when it ends. *)
Lemma startup_of_a_fresh_service env (c : telemetry.Config) :
  let svc := Service_TrackServiceStartup HasOTLP HasApplicationInsights
               (Initialize HasOTLP HasApplicationInsights env
                  (NewService c)).1 in
  telemetry.config svc = c
  ∧ (isInitialized svc = false
     ↔ HasOTLP c = true ∧ is_Some (resourceNew env))
  ∧ sent svc
    = if HasOTLP c && bool_decide (resourceNew env ≠ None) then []
      else ((if HasApplicationInsights c && Enabled c
             then [TraceTelemetry "ServiceStartup"
                     [("service.name", ServiceName c);
                      ("service.version", ServiceVersion c)]]
             else [])
            ++ (if HasOTLP c && bool_decide (exporterNew env = None)
                then [Span "ServiceStartup"
                        [attrString "service.event" "startup";
                         attrString "service.name" (ServiceName c);
                         attrString "service.version" (ServiceVersion c)]]
                else []))%list.
Proof.
  unfold Initialize, initializeTracing, NewService. cbn [telemetry.config].
  destruct (HasOTLP c) eqn:Hotlp; cbn [negb andb];
    [destruct (resourceNew env) as [e |] eqn:Hres;
     [| destruct (exporterNew env) as [e |] eqn:Hexp] |];
    cbn [fst telemetry.config];
    try (destruct (HasApplicationInsights c) eqn:Hai; cbn [andb];
         unfold initializeApplicationInsights; cbn [telemetry.config];
         try (destruct (Enabled c) eqn:Hen; cbn [negb]));
    unfold Service_TrackServiceStartup, ended;
    cbn [isInitialized negb telemetry.config tracer tracerProvider
         appInsightsClient send sent];
    rewrite ?Hotlp, ?Hai; cbn;
    (split; [done |]); (split; [| done]);
    (split; [try done; by intros ?; split; [| eexists]
            | try done; try (by intros [? [? ?]]); by intros [? ?] ]).
Qed.

(** X9. [InitializeTelemetry] always leaves a telemetry service in the
    configuration and changes no other field. The service is configured
    by [telemetry.NewConfig], with the OTLP endpoint of the command line
    in place of its own when that one is not empty. The service is left
    uninitialized exactly when an OTLP endpoint is in force and the
    resource cannot be created, and it has then sent nothing. Otherwise
    it has sent the start-up records and nothing else: the
    "ServiceStartup" trace event with the service's name and version,
    exactly when Application Insights is configured and telemetry is
    enabled, and then the "ServiceStartup" span, exactly when an OTLP
    endpoint is in force and the exporter could be created. *)
Theorem InitializeTelemetry_installs_a_service
    env serviceName serviceVersion (cfg : ConfigData Service) :
  ∃ svc,
    InitializeTelemetry HasOTLP HasApplicationInsights NewTelemetryConfig
      env serviceName serviceVersion cfg
    = setTelemetryService (Some svc) cfg
    ∧ telemetry.config svc
      = (if decide (config.OTLPEndpoint cfg ≠ "")
         then SetOTLPEndpoint (config.OTLPEndpoint cfg)
                (NewTelemetryConfig serviceName serviceVersion)
         else NewTelemetryConfig serviceName serviceVersion)
    ∧ (isInitialized svc = false
       ↔ HasOTLP (telemetry.config svc) = true ∧ is_Some (resourceNew env))
    ∧ (isInitialized svc = false → sent svc = [])
    ∧ (length (sent svc) ≤ 2)%nat
    ∧ sent svc
      = if HasOTLP (telemetry.config svc)
           && bool_decide (resourceNew env ≠ None)
        then []
        else ((if HasApplicationInsights (telemetry.config svc)
                  && Enabled (telemetry.config svc)
               then [TraceTelemetry "ServiceStartup"
                       [("service.name", ServiceName (telemetry.config svc));
                        ("service.version",
                         ServiceVersion (telemetry.config svc))]]
               else [])
              ++ (if HasOTLP (telemetry.config svc)
                     && bool_decide (exporterNew env = None)
                  then [Span "ServiceStartup"
                          [attrString "service.event" "startup";
                           attrString "service.name"
                             (ServiceName (telemetry.config svc));
                           attrString "service.version"
                             (ServiceVersion (telemetry.config svc))]]
                  else []))%list.
Proof.
  unfold InitializeTelemetry.
  set (tc := if decide (config.OTLPEndpoint cfg ≠ "")
             then SetOTLPEndpoint (config.OTLPEndpoint cfg)
                    (NewTelemetryConfig serviceName serviceVersion)
             else NewTelemetryConfig serviceName serviceVersion).
  eexists. split; [done |].
  destruct (startup_of_a_fresh_service env tc) as (Hconfig & Hinit & Hsent).
  rewrite Hconfig. refine (conj eq_refl (conj Hinit (conj _ (conj _ Hsent)))).
  - intros (Hotlp & Hres)%Hinit. rewrite Hsent, Hotlp.
    destruct Hres as [e ->]. by rewrite bool_decide_eq_true_2.
  - rewrite Hsent.
    repeat match goal with
           | |- context [if ?b then _ else _] => destruct b
           end; simpl; lia.
Qed.
End telemetry_from_configuration.

(** ** How the two handlers relate *)

Section handler_relations.
Import telemetry config mcp tools.
Context {T : Type} `{!TelemetryInterface T}.
Implicit Types (executor : CommandExecutor (T:=T)) (cfg : ConfigData T).
Implicit Types (req : CallToolRequest) (m : gmap string any).

(** X10. The handler made by [CreateToolHandlerWithName] is the plain
    handler on a rewritten request: on an allocated map it does what
    [CreateToolHandler] does on the request named [toolName] whose map
    has ["_tool_name"] bound to [toolName]. On arguments that are not a
    map the two handlers do the same on the request as it is, so with a
    sink in place the failure is tracked under the request's own name,
    not under [toolName]. *)
Theorem named_handler_is_plain_handler_on_injected_request
    executor cfg toolName name m (x : any) :
  CreateToolHandlerWithName executor cfg toolName
    {| Params := {| Name := name; Arguments := AnyMap (Some m) |} |}
  = CreateToolHandler executor cfg
      {| Params :=
           {| Name := toolName;
              Arguments :=
                AnyMap (Some (<["_tool_name" := AnyString toolName]> m)) |} |}
  ∧ ((∀ args : go_map, x ≠ AnyMap args) →
     CreateToolHandlerWithName executor cfg toolName
       {| Params := {| Name := name; Arguments := x |} |}
     = CreateToolHandler executor cfg
         {| Params := {| Name := name; Arguments := x |} |}
     ∧ ∀ sink, TelemetryService cfg = Some sink →
         ∃ r, CreateToolHandlerWithName executor cfg toolName
                {| Params := {| Name := name; Arguments := x |} |}
              = Returned r
              ∧ calls r = [CallTrackToolInvocation name "" false]).
Proof.
  split.
  - etrans; [by eapply CreateToolHandlerWithName_executes |].
    symmetry. by eapply CreateToolHandler_executes.
  - intros Hno.
    rewrite (CreateToolHandlerWithName_rejects executor cfg toolName
               {| Params := {| Name := name; Arguments := x |} |} Hno).
    rewrite (CreateToolHandler_rejects executor cfg
               {| Params := {| Name := name; Arguments := x |} |} Hno).
    split; [done |]. intros sink Hsink. eexists. split; [done |].
    by destruct (rejection_tracks_once cfg sink
                   {| Params := {| Name := name; Arguments := x |} |} Hsink).
Qed.

(** A run of either handler is a rejection or an execution. *)
Lemma run_shapes executor cfg toolName req (r : run T) :
  CreateToolHandler executor cfg req = Returned r
  ∨ CreateToolHandlerWithName executor cfg toolName req = Returned r →
  (∃ req', r = rejection cfg req')
  ∨ ∃ name args, r = execution executor cfg name args.
Proof.
  intros Hrun.
  destruct (arguments_cases req) as [Hno | [[m |] Hargs]], Hrun as [Hr | Hr].
  - rewrite (CreateToolHandler_rejects _ _ _ Hno) in Hr.
    left. exists req. by simplify_eq.
  - rewrite (CreateToolHandlerWithName_rejects _ _ _ _ Hno) in Hr.
    left. exists req. by simplify_eq.
  - rewrite (CreateToolHandler_executes _ _ _ _ Hargs) in Hr.
    right. eexists _, _. by simplify_eq.
  - rewrite (CreateToolHandlerWithName_executes _ _ _ _ _ Hargs) in Hr.
    right. eexists _, _. by simplify_eq.
  - rewrite (CreateToolHandler_executes _ _ _ _ Hargs) in Hr.
    right. eexists _, _. by simplify_eq.
  - by rewrite (CreateToolHandlerWithName_nil_map _ _ _ _ Hargs) in Hr.
Qed.

(** X11. What is tracked agrees with what is returned: in every run of
    either handler with a sink in place, the one telemetry call carries
    [success = true] exactly when the returned result is not an error
    result. *)
Theorem tracked_success_agrees_with_result
    executor cfg sink toolName req (r : run T) :
  TelemetryService cfg = Some sink →
  CreateToolHandler executor cfg req = Returned r
  ∨ CreateToolHandlerWithName executor cfg toolName req = Returned r →
  ∃ name operation success,
    tracked (calls r) = [CallTrackToolInvocation name operation success]
    ∧ IsError <$> result r = Some (negb success).
Proof.
  intros Hsink Hrun.
  destruct (run_shapes executor cfg toolName req r Hrun)
    as [[req' ->] | (name & args & ->)].
  - destruct (rejection_tracks_once cfg sink req' Hsink) as [Hcalls _].
    exists (Name (Params req')), "", false. by rewrite Hcalls.
  - destruct (execution_tracks_once executor cfg sink name args Hsink)
      as (operation & Hcalls & _).
    exists name, operation, (bool_decide (err (executor args cfg) = None)).
    rewrite Hcalls. split; [done |]. unfold execution. cbn [result fmap option_fmap option_map].
    by destruct (err (executor args cfg)).
Qed.

(** X12. The injection writes into the request's own map, overrides
    whatever the caller had put under ["_tool_name"], and leaves no trace
    of an earlier injection: after a run under [first] with an executor
    that leaves the map alone, the caller's map holds [first] under the
    key, and a run under [second] on that map calls the executor on the
    map it would have got from the original one. *)
Theorem injection_overrides_earlier_tool_name
    executor cfg first second name m :
  (∀ args, args_left (executor args cfg) = args) →
  ∃ r1 r2,
    CreateToolHandlerWithName executor cfg first
      {| Params := {| Name := name; Arguments := AnyMap (Some m) |} |}
    = Returned r1
    ∧ arguments_left r1
      = AnyMap (Some (<["_tool_name" := AnyString first]> m))
    ∧ CreateToolHandlerWithName executor cfg second
        {| Params := {| Name := name; Arguments := arguments_left r1 |} |}
      = Returned r2
    ∧ executions (calls r2)
      = [CallExecute (Some (<["_tool_name" := AnyString second]> m))]
    ∧ CreateToolHandlerWithName executor cfg second
        {| Params := {| Name := name; Arguments := AnyMap (Some m) |} |}
      = Returned r2.
Proof.
  intros Hleaves.
  assert (arguments_left
            (execution executor cfg first
               (Some (<["_tool_name" := AnyString first]> m)))
          = AnyMap (Some (<["_tool_name" := AnyString first]> m))) as Hleft.
  { unfold execution. cbn [arguments_left]. by rewrite Hleaves. }
  exists (execution executor cfg first
            (Some (<["_tool_name" := AnyString first]> m))),
         (execution executor cfg second
            (Some (<["_tool_name" := AnyString second]> m))).
  split; [by eapply CreateToolHandlerWithName_executes |].
  split; [done |]. rewrite Hleft. split_and!.
  - etrans; [by eapply CreateToolHandlerWithName_executes |].
    by rewrite insert_insert_eq.
  - unfold execution, track. by destruct (TelemetryService cfg).
  - by eapply CreateToolHandlerWithName_executes.
Qed.

(** X13. With a sink in place and an executor that leaves the map alone,
    the operation tracked for a request with an allocated map is the
    string stored under ["operation"] in that map, and the empty string
    when the key is missing or holds something else; both handlers
    track the same operation, the injected key not being in its way. *)
Theorem tracked_operation_is_the_requested_one
    executor cfg sink toolName req m :
  TelemetryService cfg = Some sink →
  Arguments (Params req) = AnyMap (Some m) →
  (∀ args, args_left (executor args cfg) = args) →
  let operation := match m !! "operation" with
                   | Some (AnyString s) => s
                   | _ => ""
                   end in
  ∃ r1 r2 ok1 ok2,
    CreateToolHandler executor cfg req = Returned r1
    ∧ CreateToolHandlerWithName executor cfg toolName req = Returned r2
    ∧ tracked (calls r1)
      = [CallTrackToolInvocation (Name (Params req)) operation ok1]
    ∧ tracked (calls r2) = [CallTrackToolInvocation toolName operation ok2].
Proof.
  intros Hsink Hargs Hleaves operation.
  assert (∀ args : go_map, mapIndex args "operation"
            = mapIndex (Some m) "operation" →
          (assertString (mapIndex args "operation")).1 = operation) as Hop.
  { intros args ->. subst operation. unfold mapIndex.
    destruct (m !! "operation") as [[] |]; done. }
  eexists _, _, _, _.
  split; [by eapply CreateToolHandler_executes |].
  split; [by eapply CreateToolHandlerWithName_executes |].
  unfold execution. rewrite !(track_present _ _ _ _ _ Hsink).
  cbn [calls snd tracked filter list_filter isTrack]. rewrite !Hleaves.
  rewrite (Hop (Some m) eq_refl).
  rewrite (Hop (Some (<["_tool_name" := AnyString toolName]> m))).
  - split; reflexivity.
  - unfold mapIndex. by rewrite lookup_insert_ne.
Qed.
End handler_relations.

(** The failing request of the tests for the named handler. *)
Lemma tracked_success_agrees_with_result_witness :
  let args : go_map :=
    Some (<["_tool_name" := AnyString "named-tool"]>
            (<["operation" := AnyString "patch"]>
               (<["arg1" := AnyString "value1"]> ∅))) in
  let r := tools.execution testdata.failing testdata.cfgMock "named-tool"
             args in
  tools.CreateToolHandlerWithName testdata.failing testdata.cfgMock
    "named-tool" (testdata.request "request-tool-name" "patch") = Returned r
  ∧ ∃ name operation success,
      tools.tracked (tools.calls r)
      = [tools.CallTrackToolInvocation name operation success]
      ∧ mcp.IsError <$> tools.result r = Some (negb success).
Proof.
  intros args r.
  assert (tools.CreateToolHandlerWithName testdata.failing testdata.cfgMock
            "named-tool" (testdata.request "request-tool-name" "patch")
          = Returned r) as Hrun by reflexivity.
  split; [exact Hrun |].
  exact (tracked_success_agrees_with_result testdata.failing
           testdata.cfgMock {| tools.invocations := [] |} "named-tool"
           (testdata.request "request-tool-name" "patch") r eq_refl
           (or_intror Hrun)).
Defined.

(** A caller that sets ["_tool_name"] itself, and two named handlers. *)
Lemma injection_overrides_earlier_tool_name_witness :
  let m : gmap string any := <["_tool_name" := AnyString "spoofed"]> ∅ in
  ∃ r1 r2,
    tools.CreateToolHandlerWithName testdata.succeeding testdata.cfgMock
      "kubectl"
      {| mcp.Params := {| mcp.Name := "x"; mcp.Arguments := AnyMap (Some m) |} |}
    = Returned r1
    ∧ tools.arguments_left r1
      = AnyMap (Some (<["_tool_name" := AnyString "kubectl"]> m))
    ∧ tools.CreateToolHandlerWithName testdata.succeeding testdata.cfgMock
        "helm"
        {| mcp.Params := {| mcp.Name := "x";
                            mcp.Arguments := tools.arguments_left r1 |} |}
      = Returned r2
    ∧ tools.executions (tools.calls r2)
      = [tools.CallExecute (Some (<["_tool_name" := AnyString "helm"]> m))].
Proof.
  intros m.
  destruct (injection_overrides_earlier_tool_name testdata.succeeding
              testdata.cfgMock "kubectl" "helm" "x" m)
    as (r1 & r2 & Hrun1 & Hleft & Hrun2 & Hexec & _).
  - intros args. reflexivity.
  - exists r1, r2. split_and!; [exact Hrun1 | exact Hleft | exact Hrun2 |
                                exact Hexec].
Defined.

(** The request of the tests for the named handler. *)
Lemma tracked_operation_is_the_requested_one_witness :
  ∃ r1 r2 ok1 ok2,
    tools.CreateToolHandler testdata.succeeding testdata.cfgMock
      (testdata.request "request-tool-name" "apply") = Returned r1
    ∧ tools.CreateToolHandlerWithName testdata.succeeding testdata.cfgMock
        "named-tool" (testdata.request "request-tool-name" "apply")
      = Returned r2
    ∧ tools.tracked (tools.calls r1)
      = [tools.CallTrackToolInvocation "request-tool-name" "apply" ok1]
    ∧ tools.tracked (tools.calls r2)
      = [tools.CallTrackToolInvocation "named-tool" "apply" ok2].
Proof.
  exact (tracked_operation_is_the_requested_one testdata.succeeding
           testdata.cfgMock {| tools.invocations := [] |} "named-tool"
           (testdata.request "request-tool-name" "apply")
           (<["operation" := AnyString "apply"]>
              (<["arg1" := AnyString "value1"]> ∅))
           eq_refl eq_refl (λ args, eq_refl)).
Defined.

(** ** The handlers over the telemetry service *)

Section handlers_over_service.
Import telemetry config mcp tools.
Variables HasOTLP HasApplicationInsights : telemetry.Config → bool.

#[local] Instance running_service : TelemetryInterface Service :=
  Service_TelemetryInterface HasOTLP HasApplicationInsights.

Lemma TrackToolInvocation_extends (s : Service) name operation success :
  extends s (Service_TrackToolInvocation HasOTLP HasApplicationInsights s
               name operation success).
Proof.
  unfold extends, Service_TrackToolInvocation.
  destruct (isInitialized s) eqn:Hinit; cbn [negb].
  - cbn [send telemetry.config tracer tracerProvider appInsightsClient
         isInitialized sent].
    split_and!; try done. eexists. split; [done |]. count_records.
  - split_and!; try done. exists []. split; [by rewrite app_nil_r |].
    simpl; lia.
Qed.

(** X14. With the telemetry service as the sink, a run of either handler
    leaves the service as it was but for the records sent: every record
    sent before is still there, at most two are added, and none when the
    service is not initialized. *)
Theorem handler_run_extends_the_service
    (executor : CommandExecutor) (cfg : ConfigData Service) (svc : Service)
    toolName req (r : run Service) :
  TelemetryService cfg = Some svc →
  CreateToolHandler executor cfg req = Returned r
  ∨ CreateToolHandlerWithName executor cfg toolName req = Returned r →
  ∃ svc', telemetry_left r = Some svc'
          ∧ extends svc svc'
          ∧ (isInitialized svc = false → svc' = svc).
Proof.
  intros Hsvc Hrun.
  destruct (run_shapes executor cfg toolName req r Hrun)
    as [[req' ->] | (name & args & ->)].
  - destruct (rejection_tracks_once cfg svc req' Hsvc) as [_ ->].
    eexists. split; [done |].
    split; [apply TrackToolInvocation_extends |].
    by apply TrackToolInvocation_uninitialized.
  - destruct (execution_tracks_once executor cfg svc name args Hsvc)
      as (operation & _ & ->).
    eexists. split; [done |].
    split; [apply TrackToolInvocation_extends |].
    by apply TrackToolInvocation_uninitialized.
Qed.
End handlers_over_service.

(** An initialized service with Application Insights, and the successful
    request of the tests. *)
Lemma handler_run_extends_the_service_witness :
  let c := {| telemetry.ServiceName := "mcp-kubernetes";
              telemetry.ServiceVersion := "1.0.0";
              telemetry.DeviceID := "device";
              telemetry.Enabled := true;
              telemetry.OTLPEndpoint := "";
              telemetry.instrumentationKey := "key" |} in
  let HasOTLP := λ c, bool_decide (telemetry.OTLPEndpoint c ≠ "") in
  let HasApplicationInsights := λ c,
    telemetry.Enabled c && bool_decide (telemetry.instrumentationKey c ≠ "") in
  let svc :=
    (telemetry.Initialize HasOTLP HasApplicationInsights
       {| telemetry.resourceNew := None; telemetry.exporterNew := None |}
       (telemetry.NewService c)).1 in
  let cfg := config.setTelemetryService (Some svc) config.NewConfig in
  let executor : tools.CommandExecutor (T:=telemetry.Service) :=
    tools.mockExecutor_Execute
      {| tools.shouldError := false; tools.mock_result := "pod-list" |} in
  let sink := telemetry.Service_TelemetryInterface HasOTLP
                HasApplicationInsights in
  let r := @tools.execution _ sink executor cfg "kubectl"
             (Some (<["operation" := AnyString "get"]>
                      (<["arg1" := AnyString "value1"]> ∅))) in
  @tools.CreateToolHandler _ sink executor cfg
    (testdata.request "kubectl" "get") = Returned r
  ∧ ∃ svc', tools.telemetry_left r = Some svc'
            ∧ telemetry.extends svc svc'
            ∧ (telemetry.isInitialized svc = false → svc' = svc).
Proof.
  intros c HasOTLP HasApplicationInsights svc cfg executor sink r.
  assert (@tools.CreateToolHandler _ sink executor cfg
            (testdata.request "kubectl" "get") = Returned r)
    as Hrun by reflexivity.
  split; [exact Hrun |].
  exact (handler_run_extends_the_service HasOTLP HasApplicationInsights
           executor cfg svc "kubectl" (testdata.request "kubectl" "get") r
           eq_refl (or_introl Hrun)).
Defined.

(** ** The available tools *)

Section available_tools.
Import config.

Lemma rangeHas_elem_of tools tool :
  rangeHas tools tool = true ↔ tool ∈ tools.
Proof.
  induction tools as [| t rest IH]; cbn [rangeHas].
  - split; [done | by intros ?%not_elem_of_nil].
  - destruct (decide (t = tool)) as [-> | Hne].
    + split; [intros _; by left | done].
    + rewrite IH. split; [by right |].
      by intros [? | ?]%elem_of_cons.
Qed.

(** X15. [IsToolSupported] answers true for the four names kubectl, helm,
    cilium and hubble and for nothing else; the comparison is byte for
    byte, with no trimming and no folding of case. *)
Theorem IsToolSupported_iff (tool : string) :
  IsToolSupported tool = true
  ↔ tool = "kubectl" ∨ tool = "helm" ∨ tool = "cilium" ∨ tool = "hubble".
Proof.
  unfold IsToolSupported, availableTools. rewrite rangeHas_elem_of.
  rewrite !elem_of_cons. split.
  - intros [? | [? | [? | [? | ?%not_elem_of_nil]]]]; by eauto.
  - intros [? | [? | [? | ?]]]; by eauto.
Qed.
End available_tools.
